(** * Economic Order Quantity: the [eoq] class of
      inventoryanalytics/lotsizing/deterministic/constant/eoq.py

    The Python class stores four numbers [K], [h], [d], [v] and evaluates
    cost formulas built from [+], [*] and [/]; [compute_eoq] hands
    [relevant_cost] to scipy's Nelder-Mead search.

    Numbers.  Python floats are IEEE doubles.  They are embedded here with
    exact arithmetic: a finite value is a rational in lowest terms, and the
    three special values of IEEE ([inf], [-inf], [nan]) are kept, because
    numpy produces them where plain Python raises [ZeroDivisionError].
    Rounding, overflow, underflow and the sign of zero are not modelled:
    a theorem below speaks of the program up to rounding. *)

From Stdlib Require Import String.
From Stdlib Require Import QArith Qcanon Qreduction Lqa Lia ZArith List Bool.
Import ListNotations.

Local Open Scope Qc_scope.

(** ** Exact IEEE-like numbers *)

Inductive num : Type :=
| Fin (q : Qc)
| PInf
| NInf
| NaN.

(** [dec n d] is the rational [n/d], e.g. [dec 105 100] for the literal
    [1.05]. *)
Definition dec (n : Z) (d : positive) : Qc := Q2Qc (n # d).

Definition Qc_ltb (a b : Qc) : bool :=
  match a ?= b with Lt => true | _ => false end.

Definition Qc_leb (a b : Qc) : bool :=
  match a ?= b with Gt => false | _ => true end.

Definition Qc_eqb (a b : Qc) : bool :=
  match a ?= b with Eq => true | _ => false end.

Definition is_nan (x : num) : bool :=
  match x with NaN => true | _ => false end.

Definition is_zero (x : num) : bool :=
  match x with Fin q => Qc_eqb q 0 | _ => false end.

Definition is_finite (x : num) : bool :=
  match x with Fin _ => true | _ => false end.

Definition nneg (x : num) : num :=
  match x with
  | Fin q => Fin (- q)
  | PInf => NInf
  | NInf => PInf
  | NaN => NaN
  end.

Definition nadd (x y : num) : num :=
  match x, y with
  | NaN, _ | _, NaN => NaN
  | PInf, NInf | NInf, PInf => NaN
  | PInf, _ | _, PInf => PInf
  | NInf, _ | _, NInf => NInf
  | Fin a, Fin b => Fin (a + b)
  end.

Definition nsub (x y : num) : num := nadd x (nneg y).

(** An infinity scaled by a finite factor: the sign of the factor decides,
    and [inf * 0] is [nan]. *)
Definition scale_inf (pos : bool) (q : Qc) : num :=
  match q ?= 0 with
  | Eq => NaN
  | Gt => if pos then PInf else NInf
  | Lt => if pos then NInf else PInf
  end.

Definition nmul (x y : num) : num :=
  match x, y with
  | NaN, _ | _, NaN => NaN
  | PInf, PInf | NInf, NInf => PInf
  | PInf, NInf | NInf, PInf => NInf
  | PInf, Fin q | Fin q, PInf => scale_inf true q
  | NInf, Fin q | Fin q, NInf => scale_inf false q
  | Fin a, Fin b => Fin (a * b)
  end.

(** IEEE division, as numpy performs it: a zero divisor gives an infinity
    (or [nan] for [0/0]) and never raises. *)
Definition ndiv (x y : num) : num :=
  match x, y with
  | NaN, _ | _, NaN => NaN
  | Fin a, Fin b =>
      if Qc_eqb b 0 then scale_inf true a else Fin (a / b)
  | Fin _, PInf | Fin _, NInf => Fin 0
  | PInf, Fin b => if Qc_ltb b 0 then NInf else PInf
  | NInf, Fin b => if Qc_ltb b 0 then PInf else NInf
  | PInf, PInf | PInf, NInf | NInf, PInf | NInf, NInf => NaN
  end.

Definition nabs (x : num) : num :=
  match x with
  | Fin q => if Qc_ltb q 0 then Fin (- q) else Fin q
  | PInf | NInf => PInf
  | NaN => NaN
  end.

Definition nlt (x y : num) : bool :=
  match x, y with
  | NaN, _ | _, NaN => false
  | Fin a, Fin b => Qc_ltb a b
  | NInf, NInf => false
  | NInf, _ => true
  | _, NInf => false
  | PInf, _ => false
  | Fin _, PInf => true
  end.

Definition nle (x y : num) : bool :=
  match x, y with
  | NaN, _ | _, NaN => false
  | Fin a, Fin b => Qc_leb a b
  | NInf, _ => true
  | _, NInf => false
  | _, PInf => true
  | PInf, Fin _ => false
  end.

(** ** Python values and exceptions

    A number seen by the class is either a Python [float] (or [int]) or a
    numpy value: [minimize] calls the objective on numpy arrays and returns
    numpy values.  Arithmetic between the two is numpy arithmetic. *)

Inductive pyval : Type :=
| PyFloat (x : num)
| NpFloat (x : num).

Definition val (a : pyval) : num :=
  match a with PyFloat x | NpFloat x => x end.

Definition is_np (a : pyval) : bool :=
  match a with NpFloat _ => true | PyFloat _ => false end.

(** The kind of the result of a binary operation. *)
Definition wrap (a b : pyval) (x : num) : pyval :=
  if is_np a || is_np b then NpFloat x else PyFloat x.

Inductive exn : Type :=
| ZeroDivisionError
| IndexError.

Inductive result (A : Type) : Type :=
| Ok (a : A)
| Raise (e : exn).

Arguments Ok {A} a.
Arguments Raise {A} e.

Definition bind {A B : Type} (r : result A) (k : A -> result B) : result B :=
  match r with
  | Ok a => k a
  | Raise e => Raise e
  end.

Notation "x <- c ;; k" := (bind c (fun x => k))
  (at level 61, c at next level, right associativity).

Definition add (a b : pyval) : result pyval := Ok (wrap a b (nadd (val a) (val b))).
Definition mul (a b : pyval) : result pyval := Ok (wrap a b (nmul (val a) (val b))).

(** [a / b]: between two Python numbers a zero divisor raises; as soon as a
    numpy value is involved the IEEE result is returned. *)
Definition truediv (a b : pyval) : result pyval :=
  if is_np a || is_np b then Ok (NpFloat (ndiv (val a) (val b)))
  else if is_zero (val b) then Raise ZeroDivisionError
  else Ok (PyFloat (ndiv (val a) (val b))).

(** Python literals. *)
Definition lit (n : Z) (d : positive) : pyval := PyFloat (Fin (dec n d)).

(** ** scipy.optimize.minimize, method Nelder-Mead, for one variable

    [minimize] is scipy's; the repository only calls it.  What follows
    transcribes scipy's Nelder-Mead driver for a vector of length [N = 1],
    with the options the call site passes (['xtol': 1e-8], which scipy maps
    to [xatol]) and scipy's defaults for the others ([fatol = 1e-4],
    [maxiter = maxfev = 200 * N], non-adaptive coefficients).  The simplex
    then has two vertices, kept sorted by objective value. *)

Module optimize.

Record options : Type := {
  xtol : num;
  disp : bool
}.

Record OptimizeResult : Type := {
  x : list num;
  fun_ : num;
  nit : nat;
  nfev : nat;
  status : nat;
  success : bool
}.

(** The search state: [sim0]/[fsim0] is the best vertex and its value,
    [sim1]/[fsim1] the worst; [fcalls] counts objective evaluations. *)
Record simplex : Type := {
  sim0 : num;
  sim1 : num;
  fsim0 : num;
  fsim1 : num;
  fcalls : nat;
  iterations : nat
}.

Definition rho : Qc := dec 1 1.
Definition chi : Qc := dec 2 1.
Definition psi : Qc := dec 1 2.
Definition sigma : Qc := dec 1 2.
Definition nonzdelt : Qc := dec 5 100.
Definition zdelt : Qc := dec 25 100000.
Definition fatol : num := Fin (dec 1 10000).
Definition N : nat := 1.

(** [numpy.argsort] on two values: the second comes first when it is
    smaller, or when the first is [nan] and the second is not. *)
Definition out_of_order (f0 f1 : num) : bool :=
  nlt f1 f0 || (is_nan f0 && negb (is_nan f1)).

Definition sort (s : simplex) : simplex :=
  if out_of_order (fsim0 s) (fsim1 s)
  then {| sim0 := sim1 s; sim1 := sim0 s; fsim0 := fsim1 s; fsim1 := fsim0 s;
          fcalls := fcalls s; iterations := iterations s |}
  else s.

(** [sim[-1] = x; fsim[-1] = fx], after [calls] more evaluations. *)
Definition replace_worst (s : simplex) (x fx : num) (calls : nat) : simplex :=
  {| sim0 := sim0 s; sim1 := x; fsim0 := fsim0 s; fsim1 := fx;
     fcalls := fcalls s + calls; iterations := iterations s |}.

(** [iterations += 1] *)
Definition advance (s : simplex) : simplex :=
  {| sim0 := sim0 s; sim1 := sim1 s; fsim0 := fsim0 s; fsim1 := fsim1 s;
     fcalls := fcalls s; iterations := iterations s + 1 |}.

(** The objective as the driver calls it: on a numpy value, reading back
    the number. *)
Definition call (func : pyval -> result pyval) (x : num) : result num :=
  r <- func (NpFloat x) ;;
  Ok (val r).

Definition shrink (func : pyval -> result pyval) (s : simplex) (calls : nat)
  : result simplex :=
  let xs := nadd (sim0 s) (nmul (Fin sigma) (nsub (sim1 s) (sim0 s))) in
  fxs <- call func xs ;;
  Ok (replace_worst s xs fxs (calls + 1)).

(** One pass of the body of the [while] loop. *)
Definition step (func : pyval -> result pyval) (s : simplex) : result simplex :=
  let xbar := ndiv (sim0 s) (Fin (dec 1 1)) in
  let xr := nsub (nmul (Fin (1 + rho)) xbar) (nmul (Fin rho) (sim1 s)) in
  fxr <- call func xr ;;
  s' <-
    (if nlt fxr (fsim0 s) then
       let xe := nsub (nmul (Fin (1 + rho * chi)) xbar)
                      (nmul (Fin (rho * chi)) (sim1 s)) in
       fxe <- call func xe ;;
       if nlt fxe fxr then Ok (replace_worst s xe fxe 2)
       else Ok (replace_worst s xr fxr 2)
     else if nlt fxr (fsim0 s) (* fsim[-2], the same entry when N = 1 *) then
       Ok (replace_worst s xr fxr 1)
     else if nlt fxr (fsim1 s) then
       let xc := nsub (nmul (Fin (1 + psi * rho)) xbar)
                      (nmul (Fin (psi * rho)) (sim1 s)) in
       fxc <- call func xc ;;
       if nle fxc fxr then Ok (replace_worst s xc fxc 2)
       else shrink func s 2
     else
       let xcc := nadd (nmul (Fin (1 - psi)) xbar) (nmul (Fin psi) (sim1 s)) in
       fxcc <- call func xcc ;;
       if nlt fxcc (fsim1 s) then Ok (replace_worst s xcc fxcc 2)
       else shrink func s 2) ;;
  Ok (advance (sort s')).

(** The test that breaks out of the loop. *)
Definition converged (xatol : num) (s : simplex) : bool :=
  nle (nabs (nsub (sim1 s) (sim0 s))) xatol
  && nle (nabs (nsub (fsim0 s) (fsim1 s))) fatol.

(** [while fcalls < maxfun and iterations < maxiter].  The recursion is on
    [remaining = maxiter - iterations]; every pass adds one to
    [iterations]. *)
Fixpoint loop (func : pyval -> result pyval) (xatol : num) (maxfun : nat)
    (remaining : nat) (s : simplex) : result simplex :=
  match remaining with
  | O => Ok s
  | S r =>
      if (maxfun <=? fcalls s)%nat then Ok s
      else if converged xatol s then Ok s
      else s' <- step func s ;; loop func xatol maxfun r s'
  end.

(** The initial simplex: [x0] and [x0] moved by five percent, evaluated
    and sorted. *)
Definition initial (func : pyval -> result pyval) (x0 : num) : result simplex :=
  let y := if negb (is_zero x0) then nmul (Fin (1 + nonzdelt)) x0 else Fin zdelt in
  f0 <- call func x0 ;;
  f1 <- call func y ;;
  Ok (sort {| sim0 := x0; sim1 := y; fsim0 := f0; fsim1 := f1;
              fcalls := 2; iterations := 1 |}).

Definition minimize_neldermead (func : pyval -> result pyval) (x0 : num)
    (xatol : num) : result OptimizeResult :=
  let maxiter := (N * 200)%nat in
  let maxfun := (N * 200)%nat in
  s <- initial func x0 ;;
  s <- loop func xatol maxfun (maxiter - 1) s ;;
  let warnflag :=
    if (maxfun <=? fcalls s)%nat then 1%nat
    else if (maxiter <=? iterations s)%nat then 2%nat
    else 0%nat in
  Ok {| x := [sim0 s]; fun_ := fsim0 s; nit := iterations s; nfev := fcalls s;
        status := warnflag; success := (warnflag =? 0)%nat |}.

(** [minimize(fun, x0, method='nelder-mead', options=...)] *)
Definition minimize (func : pyval -> result pyval) (x0 : pyval) (opts : options)
  : result OptimizeResult :=
  minimize_neldermead func (val x0) (xtol opts).

End optimize.

(** [a[i]] on a numpy array. *)
Definition getitem (a : list num) (i : nat) : result pyval :=
  match nth_error a i with
  | Some x => Ok (NpFloat x)
  | None => Raise IndexError
  end.

(** ** The class [eoq] *)

Module eoq.

Record t : Type := init { K : pyval; h : pyval; d : pyval; v : pyval }.

(** [return K/(Q/d)] *)
Definition co_fixed (self : t) (Q : pyval) : result pyval :=
  let K := K self in
  let d := d self in
  c <- truediv Q d ;;
  truediv K c.

(** [return d*v] *)
Definition co_variable (self : t) (Q : pyval) : result pyval :=
  let d := d self in
  let v := v self in
  mul d v.

(** [return h*Q/2] *)
Definition ch (self : t) (Q : pyval) : result pyval :=
  let h := h self in
  p <- mul h Q ;;
  truediv p (lit 2 1).

(** [return self.co_fixed(Q)+self.ch(Q)] *)
Definition relevant_cost (self : t) (Q : pyval) : result pyval :=
  a <- co_fixed self Q ;;
  b <- ch self Q ;;
  add a b.

(** [return self.co_fixed(Q)+self.co_variable(Q)+self.ch(Q)] *)
Definition cost (self : t) (Q : pyval) : result pyval :=
  a <- co_fixed self Q ;;
  b <- co_variable self Q ;;
  s <- add a b ;;
  c <- ch self Q ;;
  add s c.

(** [return d*lead_time] *)
Definition reorder_point (self : t) (lead_time : pyval) : result pyval :=
  let d := d self in
  mul d lead_time.

(** [res = minimize(self.relevant_cost, x0, method='nelder-mead',
                    options={'xtol': 1e-8, 'disp': False})]
    [return res.x[0]] *)
Definition compute_eoq (self : t) : result pyval :=
  let x0 := lit 1 1 in
  res <- optimize.minimize (relevant_cost self) x0
           {| optimize.xtol := Fin (dec 1 100000000); optimize.disp := false |} ;;
  getitem (optimize.x res) 0.

(** [return self.compute_eoq()/d] *)
Definition coverage (self : t) : result pyval :=
  let d := d self in
  q <- compute_eoq self ;;
  truediv q d.

(** [return self.compute_eoq()/2] *)
Definition average_inventory (self : t) : result pyval :=
  q <- compute_eoq self ;;
  truediv q (lit 2 1).

(** [return 2*d/self.compute_eoq()] *)
Definition itr (self : t) : result pyval :=
  let d := d self in
  p <- mul (lit 2 1) d ;;
  q <- compute_eoq self ;;
  truediv p q.

(** [Qopt = self.compute_eoq()]
    [return 0.5*(Qopt/Q+Q/Qopt)] *)
Definition sensitivity_to_Q (self : t) (Q : pyval) : result pyval :=
  Qopt <- compute_eoq self ;;
  a <- truediv Qopt Q ;;
  b <- truediv Q Qopt ;;
  s <- add a b ;;
  mul (lit 1 2) s.

End eoq.


(** ** Finite models and concrete instances *)

Definition py (q : Qc) : pyval := PyFloat (Fin q).

(** A model whose four fields are finite Python floats. *)
Definition model (K h d v : Qc) : eoq.t := eoq.init (py K) (py h) (py d) (py v).

(** The instance of the source's [_sample_instance]. *)
Definition sample : eoq.t := model (dec 100 1) (dec 1 1) (dec 10 1) (dec 2 1).

(** An instance whose optimal quantity, [sqrt(2/100)], is below one. *)
Definition small : eoq.t := model (dec 1 1) (dec 100 1) (dec 1 1) (dec 2 1).

(** What a call handed back, when it returned a rational. *)
Definition returned (r : result pyval) : option Q :=
  match r with
  | Ok a => match val a with Fin q => Some (this q) | _ => None end
  | Raise _ => None
  end.

(** [q] is within relative error [eps] of the square root of [a]:
    [(1-eps) sqrt a <= q <= (1+eps) sqrt a], written on squares. *)
Definition close_to_sqrt (q a eps : Qc) : Prop :=
  0 < q /\ (1 - eps) * (1 - eps) * a <= q * q /\ q * q <= (1 + eps) * (1 + eps) * a.

(** The options of the call in [compute_eoq]. *)
Definition search_options : optimize.options :=
  {| optimize.xtol := Fin (dec 1 100000000); optimize.disp := false |}.

(** What the search reports: [(success, status, nit, nfev)]. *)
Definition report (r : result optimize.OptimizeResult) : option (bool * nat * nat * nat) :=
  match r with
  | Ok res => Some (optimize.success res, optimize.status res,
                    optimize.nit res, optimize.nfev res)
  | Raise _ => None
  end.

(** The two vertices, best first, after at most [passes] passes of the
    search of [compute_eoq]. *)
Definition vertices_after (self : eoq.t) (passes : nat) : option (Q * Q) :=
  match
    s0 <- optimize.initial (eoq.relevant_cost self) (Fin (dec 1 1)) ;;
    optimize.loop (eoq.relevant_cost self) (optimize.xtol search_options)
      200 passes s0
  with
  | Ok s =>
      match optimize.sim0 s, optimize.sim1 s with
      | Fin a, Fin b => Some (this a, this b)
      | _, _ => None
      end
  | Raise _ => None
  end.

(** The value of [relevant_cost] on a numpy argument.  The search calls it
    that way, so no division raises: the value may be an infinity or
    [nan]. *)
Definition objective (self : eoq.t) (x : num) : num :=
  nadd (ndiv (val (eoq.K self)) (ndiv x (val (eoq.d self))))
       (ndiv (nmul (val (eoq.h self)) x) (Fin (dec 2 1))).

(** The relevant cost as a formula on rationals. *)
Definition relevant_formula (K h d Q : Qc) : Qc :=
  K / (Q / d) + h * Q / dec 2 1.

(** [relevantCost(x) < relevantCost(y)], both calls returning a number. *)
Definition costs_less (self : eoq.t) (x y : Qc) : Prop :=
  exists a b,
    eoq.relevant_cost self (py x) = Ok (py a) /\
    eoq.relevant_cost self (py y) = Ok (py b) /\
    a < b.

(** Invariants of the search for an objective [f]: both vertices are
    rationals and the stored values are the objective's; in [wf_fin] the
    best value is a rational too. *)
Definition wf (f : num -> num) (s : optimize.simplex) : Prop :=
  (exists q0, optimize.sim0 s = Fin q0) /\
  (exists q1, optimize.sim1 s = Fin q1) /\
  optimize.fsim0 s = f (optimize.sim0 s) /\
  optimize.fsim1 s = f (optimize.sim1 s).

Definition wf_fin (f : num -> num) (s : optimize.simplex) : Prop :=
  wf f s /\ is_finite (optimize.fsim0 s) = true.

(** [range(lo, hi)] *)
Definition range (lo hi : Z) : list Z :=
  map (fun i => (lo + Z.of_nat i)%Z) (seq 0 (Z.to_nat (hi - lo))).

(** A Python [int] used as a number. *)
Definition of_int (k : Z) : pyval := PyFloat (Fin (dec k 1)).

(** [[f(k) for k in ks]]: the first exception ends the comprehension. *)
Fixpoint comprehension {A B : Type} (f : A -> result B) (ks : list A)
  : result (list B) :=
  match ks with
  | [] => Ok []
  | k :: ks' => y <- f k ;; ys <- comprehension f ks' ;; Ok (y :: ys)
  end.

(** A command that writes events (calls to [matplotlib.pyplot], lines on
    standard output) before it returns or raises. *)
Definition io (E A : Type) : Type := (list E * result A)%type.

Definition io_bind {E A B : Type} (c : io E A) (k : A -> io E B) : io E B :=
  match snd c with
  | Ok a => (fst c ++ fst (k a), snd (k a))
  | Raise e => (fst c, Raise e)
  end.

Definition emit {E : Type} (e : E) : io E unit := ([e], Ok tt).
Definition lift {E A : Type} (r : result A) : io E A := ([], r).

Notation "x <~ c ;; k" := (io_bind c (fun x => k))
  (at level 61, c at next level, right associativity).

Module plt.

Inductive call : Type :=
| plot (xs : list Z) (ys : list pyval) (label : option string)
| legend (handles : list nat) (loc : Z)
| ylabel (s : string)
| xlabel (s : string)
| show.

(** The ordinates of a plotted line that are rationals. *)
Definition ordinates (c : call) : list Q :=
  match c with
  | plot _ ys _ =>
      flat_map (fun y => match val y with Fin q => [this q] | _ => [] end) ys
  | _ => []
  end.

(** The call with its ordinates left out. *)
Definition outline (c : call) : call :=
  match c with plot xs _ l => plot xs [] l | _ => c end.

End plt.

(** ** The static methods

    [_plot_eoq], [_plot_sensitivity_to_Q] and [_sample_instance] compute
    series with the methods above and hand them to [matplotlib.pyplot] or
    to [print].  They are embedded by what they write: the sequence of
    [plt] calls, or the values printed.  A line returned by [plt.plot] is
    named by the position of the call that drew it. *)
Definition _plot_eoq : io plt.call unit :=
  let pb := eoq.init (of_int 100) (of_int 1) (of_int 10) (of_int 2) in
  ys <~ lift (comprehension (fun k => eoq.relevant_cost pb (of_int k)) (range 10 100)) ;;
  _ <~ emit (plt.plot (range 10 100) ys (Some "Total relevant cost"%string)) ;;
  let total := 0%nat in
  ys <~ lift (comprehension (fun k => eoq.co_fixed pb (of_int k)) (range 10 100)) ;;
  _ <~ emit (plt.plot (range 10 100) ys (Some "Ordering cost"%string)) ;;
  let ordering := 1%nat in
  ys <~ lift (comprehension (fun k => eoq.ch pb (of_int k)) (range 10 100)) ;;
  _ <~ emit (plt.plot (range 10 100) ys (Some "Holding cost"%string)) ;;
  let holding := 2%nat in
  _ <~ emit (plt.legend [total; ordering; holding] 1) ;;
  _ <~ emit (plt.ylabel "Cost") ;;
  _ <~ emit (plt.xlabel "Q") ;;
  emit plt.show.

(** [plt.plot(range(20,80), [pb.sensitivity_to_Q(k) for k in range(20,80)])] *)
Definition _plot_sensitivity_to_Q : io plt.call unit :=
  let pb := eoq.init (of_int 100) (of_int 1) (of_int 10) (of_int 2) in
  ys <~ lift (comprehension (fun k => eoq.sensitivity_to_Q pb (of_int k)) (range 20 80)) ;;
  _ <~ emit (plt.plot (range 20 80) ys None) ;;
  _ <~ emit (plt.ylabel "Sensitivity") ;;
  _ <~ emit (plt.xlabel "Q") ;;
  emit plt.show.

(** [print] writes its argument on standard output. *)
Definition _sample_instance : io pyval unit :=
  let pb := eoq.init (of_int 100) (of_int 1) (of_int 10) (of_int 2) in
  Qopt <~ lift (eoq.compute_eoq pb) ;;
  _ <~ emit Qopt ;;
  c <~ lift (eoq.relevant_cost pb Qopt) ;;
  emit c.

(** [if __name__ == '__main__': eoq._plot_sensitivity_to_Q()] *)
Definition main : io plt.call unit := _plot_sensitivity_to_Q.

(** Checks on a series of rationals. *)
Fixpoint strictly_increasing (l : list Q) : bool :=
  match l with
  | a :: (b :: _) as t =>
      match (a ?= b)%Q with Lt => strictly_increasing t | _ => false end
  | _ => true
  end.

Definition strictly_decreasing (l : list Q) : bool := strictly_increasing (rev l).

(** The pointwise sums of two series, in lowest terms. *)
Definition sums (a b : list Q) : list Q :=
  map (fun p => Qred (fst p + snd p)) (combine a b).

(** The [n]-th call of a log of [plt] calls. *)
Definition nth_call (n : nat) (log : list plt.call) : plt.call := nth n log plt.show.

(** A search state whose best vertex is the start point 1, next to a
    second vertex strictly between 0 and 2. *)
Definition anchored (f : num -> num) (s : optimize.simplex) : Prop :=
  exists w,
    optimize.sim0 s = Fin 1 /\ optimize.sim1 s = Fin w /\
    0 < w /\ w < dec 2 1 /\ w <> 1 /\
    optimize.fsim0 s = f (Fin 1) /\ optimize.fsim1 s = f (Fin w).

(** * Properties *)

(** ** Comparisons on canonical rationals *)

Lemma Qc_eqb_eq (a b : Qc) : Qc_eqb a b = true <-> a = b.
Proof.
  unfold Qc_eqb. rewrite Qceq_alt. destruct (a ?= b); split; congruence.
Qed.

Lemma Qc_eqb_neq (a b : Qc) : Qc_eqb a b = false <-> a <> b.
Proof.
  rewrite <- Qc_eqb_eq. destruct (Qc_eqb a b); split; congruence.
Qed.

Lemma scale_inf_pos (q : Qc) : 0 < q -> scale_inf true q = PInf.
Proof.
  intros H. unfold scale_inf.
  assert (E : (q ?= 0) = Gt) by (apply Qcgt_alt; exact H).
  rewrite E. reflexivity.
Qed.

(** ** The search never fails and returns a finite vertex *)

Section Search.

Import optimize.

Variable func : pyval -> result pyval.
Variable f : num -> num.
Hypothesis Hcall : forall x, call func x = Ok (f x).

Lemma sort_wf s : wf f s -> wf f (sort s).
Proof.
  unfold wf, sort. intros (H0 & H1 & H2 & H3).
  destruct (out_of_order _ _); simpl; auto.
Qed.

Lemma replace_worst_wf s q n :
  wf f s -> wf f (replace_worst s (Fin q) (f (Fin q)) n).
Proof.
  unfold wf. intros (H0 & H1 & H2 & H3). simpl. eauto 6.
Qed.

Lemma advance_wf s : wf f s -> wf f (advance s).
Proof. unfold wf. intros (H0 & H1 & H2 & H3). simpl. auto. Qed.

Lemma ndiv_one q : ndiv (Fin q) (Fin (dec 1 1)) = Fin (q / dec 1 1).
Proof. reflexivity. Qed.

(** Whatever branch is taken, a pass replaces the worst vertex by a rational
    point with its objective value, sorts and counts the iteration. *)
Lemma step_shape s :
  wf f s ->
  exists q n,
    step func s = Ok (advance (sort (replace_worst s (Fin q) (f (Fin q)) n))).
Proof.
  intros ([q0 E0] & [q1 E1] & H2 & H3).
  unfold step, shrink. rewrite E0, E1, ndiv_one.
  cbn [nmul nsub nadd nneg]. rewrite !Hcall. cbn [bind].
  repeat match goal with
         | |- context [if ?b then _ else _] => destruct b
         end;
    cbn [bind]; rewrite ?Hcall; cbn [bind]; eexists _, _; reflexivity.
Qed.

Lemma step_wf s :
  wf f s -> exists s', step func s = Ok s' /\ wf f s'.
Proof.
  intros H. destruct (step_shape s H) as (q & n & E).
  eexists. split; [exact E|].
  apply advance_wf, sort_wf, replace_worst_wf, H.
Qed.

Lemma loop_wf xatol maxfun remaining s :
  wf f s -> exists s', loop func xatol maxfun remaining s = Ok s' /\ wf f s'.
Proof.
  revert s. induction remaining as [|r IH]; intros s H; simpl.
  - eauto.
  - destruct (maxfun <=? fcalls s)%nat; [eauto|].
    destruct (converged xatol s); [eauto|].
    destruct (step_wf s H) as (s' & E & H').
    rewrite E. cbn [bind]. apply IH, H'.
Qed.

(** Started from a rational point, the search returns a result whose [x]
    holds one rational, the best vertex, whether or not it converged. *)
Lemma minimize_neldermead_total q0 xatol :
  exists res q,
    minimize_neldermead func (Fin q0) xatol = Ok res /\ x res = [Fin q].
Proof.
  unfold minimize_neldermead, initial. rewrite !Hcall. cbn [bind].
  match goal with
  | |- context [loop func xatol ?mf ?r ?s] =>
      destruct (loop_wf xatol mf r s) as (s' & E & ([q E0] & _))
  end.
  - apply sort_wf. unfold wf. cbn [sim0 sim1 fsim0 fsim1].
    destruct (negb (is_zero (Fin q0))); cbn [nmul]; eauto 6.
  - rewrite E. cbn [bind]. eexists _, q. split; [reflexivity|].
    cbn [x]. rewrite E0. reflexivity.
Qed.

(** When the objective takes no value below every rational (it is a
    rational or [+inf] at every rational point), the best vertex always
    carries a rational value. *)
Hypothesis Hrange : forall q, f (Fin q) = PInf \/ exists r, f (Fin q) = Fin r.

Lemma sort_replace_fin s q n :
  wf_fin f s -> wf_fin f (sort (replace_worst s (Fin q) (f (Fin q)) n)).
Proof.
  intros [H Hfin]. split.
  - apply sort_wf, replace_worst_wf, H.
  - unfold sort, out_of_order. cbn [replace_worst fsim0 fsim1].
    destruct (fsim0 s) as [a| | |] eqn:Ef; try discriminate.
    destruct (Hrange q) as [E|[r E]]; rewrite E; cbn [nlt is_nan andb orb].
    + cbn [fsim0 replace_worst]. rewrite Ef. reflexivity.
    + destruct (Qc_ltb r a); cbn [fsim0 replace_worst orb andb is_finite];
        [|rewrite Ef]; reflexivity.
Qed.

Lemma step_fin s :
  wf_fin f s -> exists s', step func s = Ok s' /\ wf_fin f s'.
Proof.
  intros H. destruct (step_shape s (proj1 H)) as (q & n & E).
  eexists. split; [exact E|].
  destruct (sort_replace_fin s q n H) as [H1 H2].
  split; [apply advance_wf, H1 | exact H2].
Qed.

Lemma loop_fin xatol maxfun remaining s :
  wf_fin f s -> exists s', loop func xatol maxfun remaining s = Ok s' /\ wf_fin f s'.
Proof.
  revert s. induction remaining as [|r IH]; intros s H; simpl.
  - eauto.
  - destruct (maxfun <=? fcalls s)%nat; [eauto|].
    destruct (converged xatol s); [eauto|].
    destruct (step_fin s H) as (s' & E & H').
    rewrite E. cbn [bind]. apply IH, H'.
Qed.

Lemma minimize_neldermead_finite q0 xatol :
  q0 <> 0 ->
  is_finite (f (Fin q0)) = true ->
  exists res q,
    minimize_neldermead func (Fin q0) xatol = Ok res /\
    x res = [Fin q] /\ is_finite (f (Fin q)) = true.
Proof.
  intros Hq0 Hfin.
  unfold minimize_neldermead, initial. rewrite !Hcall. cbn [bind].
  match goal with
  | |- context [loop func xatol ?mf ?r ?s] =>
      destruct (loop_fin xatol mf r s) as (s' & E & (([q E0] & _ & E2 & _) & F))
  end.
  - apply Qc_eqb_neq in Hq0. cbn [is_zero]. rewrite Hq0. cbn [negb nmul].
    match goal with |- wf_fin f (sort ?s0) => set (s := s0) end.
    assert (W : wf f s) by (unfold wf, s; cbn; eauto 6).
    split; [apply sort_wf, W|].
    unfold sort, out_of_order, s. cbn [fsim0 fsim1].
    destruct (f (Fin q0)) as [a| | |]; try discriminate.
    match goal with |- context [f (Fin ?y)] => destruct (Hrange y) as [Ey|[r Ey]]; rewrite Ey end;
      cbn [nlt is_nan andb orb].
    + reflexivity.
    + destruct (Qc_ltb r a); reflexivity.
  - rewrite E. cbn [bind]. eexists _, q. split; [reflexivity|].
    cbn [x]. rewrite E0. split; [reflexivity|].
    rewrite <- E0, <- E2. exact F.
Qed.

End Search.

(** ** The objective inside the search *)

Lemma call_relevant_cost self x :
  optimize.call (eoq.relevant_cost self) x = Ok (objective self x).
Proof.
  unfold optimize.call, eoq.relevant_cost, eoq.co_fixed, eoq.ch, truediv, mul, add, wrap.
  cbn [is_np orb bind val].
  rewrite !orb_true_r. cbn [bind val is_np orb]. rewrite ?orb_true_r.
  cbn [bind val]. reflexivity.
Qed.

(** [compute_eoq] returns for every model, whatever its fields: it hands
    back the first coordinate of the search result. *)
Lemma compute_eoq_total self :
  exists res q,
    optimize.minimize (eoq.relevant_cost self) (lit 1 1) search_options = Ok res /\
    optimize.x res = [Fin q] /\
    eoq.compute_eoq self = Ok (NpFloat (Fin q)).
Proof.
  destruct (minimize_neldermead_total (eoq.relevant_cost self) (objective self)
              (call_relevant_cost self) (dec 1 1) (optimize.xtol search_options))
    as (res & q & E & Ex).
  exists res, q. split; [exact E|]. split; [exact Ex|].
  unfold eoq.compute_eoq. fold search_options.
  change (optimize.minimize (eoq.relevant_cost self) (lit 1 1) search_options)
    with (optimize.minimize_neldermead (eoq.relevant_cost self) (Fin (dec 1 1))
            (optimize.xtol search_options)).
  rewrite E. cbn [bind]. rewrite Ex. reflexivity.
Qed.

Lemma Qcdiv_eq_0 (q d : Qc) : d <> 0 -> (q / d = 0 <-> q = 0).
Proof.
  intros Hd. split; intros H.
  - assert (E : q = q / d * d) by (field; exact Hd).
    rewrite E, H. ring.
  - rewrite H. field. exact Hd.
Qed.

Lemma ndiv_fin (a b : Qc) : b <> 0 -> ndiv (Fin a) (Fin b) = Fin (a / b).
Proof.
  intros Hb. apply Qc_eqb_neq in Hb. unfold ndiv. rewrite Hb. reflexivity.
Qed.

Lemma objective_model K h d v q :
  0 < K -> d <> 0 ->
  objective (model K h d v) (Fin q) =
  if Qc_eqb q 0 then PInf else Fin (relevant_formula K h d q).
Proof.
  intros HK Hd. unfold objective, model. cbn [eoq.K eoq.h eoq.d val py nmul].
  rewrite (ndiv_fin q d Hd).
  rewrite (ndiv_fin (h * q) (dec 2 1)) by discriminate.
  destruct (Qc_eqb q 0) eqn:Eq.
  - apply Qc_eqb_eq in Eq. subst q.
    assert (E0 : 0 / d = 0) by (apply Qcdiv_eq_0; auto).
    rewrite E0. unfold ndiv. change (Qc_eqb 0 0) with true. cbn iota.
    rewrite (scale_inf_pos K HK). reflexivity.
  - apply Qc_eqb_neq in Eq.
    rewrite ndiv_fin by (rewrite Qcdiv_eq_0; auto).
    reflexivity.
Qed.

(** For a model with [K > 0] and [d <> 0] the value returned by
    [compute_eoq] is a rational different from zero. *)
Lemma compute_eoq_nonzero K h d v :
  0 < K -> d <> 0 ->
  exists q, eoq.compute_eoq (model K h d v) = Ok (NpFloat (Fin q)) /\ q <> 0.
Proof.
  intros HK Hd. set (self := model K h d v).
  assert (Hrange : forall q, objective self (Fin q) = PInf \/
                             exists r, objective self (Fin q) = Fin r).
  { intros q. unfold self. rewrite objective_model by assumption.
    destruct (Qc_eqb q 0); eauto. }
  destruct (minimize_neldermead_finite (eoq.relevant_cost self) (objective self)
              (call_relevant_cost self) Hrange (dec 1 1)
              (optimize.xtol search_options))
    as (res & q & E & Ex & F).
  - discriminate.
  - unfold self. rewrite objective_model by assumption. reflexivity.
  - exists q. split.
    + unfold eoq.compute_eoq. fold search_options.
      change (optimize.minimize (eoq.relevant_cost self) (lit 1 1) search_options)
        with (optimize.minimize_neldermead (eoq.relevant_cost self) (Fin (dec 1 1))
                (optimize.xtol search_options)).
      rewrite E. cbn [bind]. rewrite Ex. reflexivity.
    + intros ->. unfold self in F. rewrite objective_model in F by assumption.
      discriminate F.
Qed.

(** ** The cost evaluators on Python floats *)

Lemma truediv_py (a b : Qc) :
  truediv (py a) (py b) =
  if Qc_eqb b 0 then Raise ZeroDivisionError else Ok (py (a / b)).
Proof.
  unfold truediv, py. cbn [is_np orb val is_zero].
  destruct (Qc_eqb b 0) eqn:E; [reflexivity|].
  apply Qc_eqb_neq in E. rewrite (ndiv_fin a b E). reflexivity.
Qed.

Lemma Qcdiv_eqb_0 (q d : Qc) : d <> 0 -> Qc_eqb (q / d) 0 = Qc_eqb q 0.
Proof.
  intros Hd. destruct (Qc_eqb q 0) eqn:E.
  - apply Qc_eqb_eq. apply Qc_eqb_eq in E. apply Qcdiv_eq_0; assumption.
  - apply Qc_eqb_neq. apply Qc_eqb_neq in E. rewrite Qcdiv_eq_0; assumption.
Qed.

Lemma co_fixed_py K h d v Q :
  eoq.co_fixed (model K h d v) (py Q) =
  if Qc_eqb d 0 || Qc_eqb Q 0 then Raise ZeroDivisionError
  else Ok (py (K / (Q / d))).
Proof.
  unfold eoq.co_fixed, model. cbn [eoq.K eoq.d]. rewrite truediv_py.
  destruct (Qc_eqb d 0) eqn:Ed; cbn [bind orb]; [reflexivity|].
  apply Qc_eqb_neq in Ed. rewrite truediv_py, (Qcdiv_eqb_0 Q d Ed). reflexivity.
Qed.

Lemma ch_py K h d v Q :
  eoq.ch (model K h d v) (py Q) = Ok (py (h * Q / dec 2 1)).
Proof.
  unfold eoq.ch, model, mul. cbn [eoq.h wrap py is_np orb val nmul bind].
  fold (py (h * Q)). unfold lit. fold (py (dec 2 1)). rewrite truediv_py.
  reflexivity.
Qed.

Lemma co_variable_any K h d v (Q : pyval) :
  eoq.co_variable (model K h d v) Q = Ok (py (d * v)).
Proof. reflexivity. Qed.

Lemma relevant_cost_py K h d v Q :
  eoq.relevant_cost (model K h d v) (py Q) =
  if Qc_eqb d 0 || Qc_eqb Q 0 then Raise ZeroDivisionError
  else Ok (py (K / (Q / d) + h * Q / dec 2 1)).
Proof.
  unfold eoq.relevant_cost. rewrite co_fixed_py, ch_py.
  destruct (Qc_eqb d 0 || Qc_eqb Q 0); reflexivity.
Qed.

Lemma cost_py K h d v Q :
  eoq.cost (model K h d v) (py Q) =
  if Qc_eqb d 0 || Qc_eqb Q 0 then Raise ZeroDivisionError
  else Ok (py (K / (Q / d) + d * v + h * Q / dec 2 1)).
Proof.
  unfold eoq.cost. rewrite co_fixed_py, ch_py, co_variable_any.
  destruct (Qc_eqb d 0 || Qc_eqb Q 0); reflexivity.
Qed.

Lemma Qc_pos_eqb (q : Qc) : 0 < q -> Qc_eqb q 0 = false.
Proof.
  intros H. apply Qc_eqb_neq. intros ->. exact (Qclt_not_eq _ _ H eq_refl).
Qed.

(** ** From canonical rationals to [Q], where [lra] and [nra] apply *)

Lemma this_plus (a b : Qc) : (this (a + b) == this a + this b)%Q.
Proof. apply Qred_correct. Qed.

Lemma this_mult (a b : Qc) : (this (a * b) == this a * this b)%Q.
Proof. apply Qred_correct. Qed.

Lemma this_opp (a : Qc) : (this (- a) == - this a)%Q.
Proof. apply Qred_correct. Qed.

Lemma this_minus (a b : Qc) : (this (a - b) == this a - this b)%Q.
Proof. unfold Qcminus. rewrite this_plus, this_opp. reflexivity. Qed.

Lemma this_inv (a : Qc) : (this (/ a) == / this a)%Q.
Proof. apply Qred_correct. Qed.

Lemma this_div (a b : Qc) : (this (a / b) == this a / this b)%Q.
Proof. unfold Qcdiv. rewrite this_mult, this_inv. reflexivity. Qed.

Lemma this_dec n d : (this (dec n d) == n # d)%Q.
Proof. apply Qred_correct. Qed.

Lemma this_0 : (this 0 == 0)%Q.
Proof. reflexivity. Qed.

Lemma this_1 : (this 1 == 1)%Q.
Proof. reflexivity. Qed.

Lemma Qc_eq_this (a b : Qc) : a = b <-> (this a == this b)%Q.
Proof. split; [intros ->; reflexivity | apply Qc_is_canon]. Qed.

Ltac push_this :=
  repeat (rewrite ?this_plus, ?this_minus, ?this_mult, ?this_opp, ?this_div,
            ?this_inv, ?this_dec, ?this_0, ?this_1).

Ltac push_this_in H :=
  repeat (rewrite ?this_plus, ?this_minus, ?this_mult, ?this_opp, ?this_div,
            ?this_inv, ?this_dec, ?this_0, ?this_1 in H).

(** Turn every order or equality statement on [Qc] into one on [Q]. *)
Ltac to_Q :=
  unfold Qclt, Qcle in *;
  repeat match goal with
         | H : @eq Qc _ _ |- _ => apply Qc_eq_this in H
         | H : ~ @eq Qc _ _ |- _ => rewrite Qc_eq_this in H
         | |- @eq Qc _ _ => apply Qc_eq_this
         | |- ~ @eq Qc _ _ => rewrite Qc_eq_this
         end;
  repeat match goal with
         | H : _ |- _ => progress push_this_in H
         end;
  push_this.


(** ** Cost primitives *)

(** C5: for every model and every Q > 0, fixedOrderingCost(Q) is K/(Q/d)
    (Python raises ZeroDivisionError for that expression when d is zero),
    holdingCost(Q) is h*Q/2, and relevantCost(Q) is the sum of the two
    calls. *)
Theorem cost_primitives_formulas K h d v Q :
  0 < Q ->
  let self := model K h d v in
  eoq.co_fixed self (py Q) =
    (if Qc_eqb d 0 then Raise ZeroDivisionError else Ok (py (K / (Q / d)))) /\
  eoq.ch self (py Q) = Ok (py (h * Q / dec 2 1)) /\
  eoq.relevant_cost self (py Q) =
    (a <- eoq.co_fixed self (py Q) ;; b <- eoq.ch self (py Q) ;; add a b) /\
  eoq.relevant_cost self (py Q) =
    (if Qc_eqb d 0 then Raise ZeroDivisionError
     else Ok (py (K / (Q / d) + h * Q / dec 2 1))).
Proof.
  intros HQ self. unfold self.
  rewrite relevant_cost_py, co_fixed_py, ch_py, (Qc_pos_eqb Q HQ), orb_false_r.
  repeat split. destruct (Qc_eqb d 0); reflexivity.
Qed.

Lemma cost_primitives_formulas_witness :
  eoq.co_fixed sample (py (dec 20 1)) = Ok (py (dec 100 1 / (dec 20 1 / dec 10 1))) /\
  eoq.ch sample (py (dec 20 1)) = Ok (py (dec 1 1 * dec 20 1 / dec 2 1)).
Proof.
  assert (H : 0 < dec 20 1) by reflexivity.
  destruct (cost_primitives_formulas (dec 100 1) (dec 1 1) (dec 10 1) (dec 2 1)
              (dec 20 1) H) as (H1 & H2 & _).
  split; [exact H1 | exact H2].
Defined.

(** C6: for every model and every Q > 0, totalCost(Q) is
    fixedOrderingCost(Q) + variableOrderingCost(Q) + holdingCost(Q), and
    variableOrderingCost returns d*v whatever its argument. *)
Theorem total_cost_formula K h d v Q :
  0 < Q ->
  let self := model K h d v in
  eoq.cost self (py Q) =
    (a <- eoq.co_fixed self (py Q) ;;
     b <- eoq.co_variable self (py Q) ;;
     s <- add a b ;;
     c <- eoq.ch self (py Q) ;;
     add s c) /\
  eoq.cost self (py Q) =
    (if Qc_eqb d 0 then Raise ZeroDivisionError
     else Ok (py (K / (Q / d) + d * v + h * Q / dec 2 1))) /\
  (forall Q' : pyval, eoq.co_variable self Q' = Ok (py (d * v))).
Proof.
  intros HQ self. unfold self.
  rewrite cost_py, co_fixed_py, ch_py, (Qc_pos_eqb Q HQ), orb_false_r.
  repeat split. destruct (Qc_eqb d 0); reflexivity.
Qed.

Lemma total_cost_formula_witness :
  eoq.cost sample (py (dec 20 1)) =
  Ok (py (dec 100 1 / (dec 20 1 / dec 10 1) + dec 10 1 * dec 2 1
          + dec 1 1 * dec 20 1 / dec 2 1)).
Proof.
  assert (H : 0 < dec 20 1) by reflexivity.
  exact (proj1 (proj2 (total_cost_formula (dec 100 1) (dec 1 1) (dec 10 1)
                         (dec 2 1) (dec 20 1) H))).
Defined.

(** ** Validation *)






(** ** Derived metrics *)

Lemma truediv_np_l (q : num) (b : pyval) :
  truediv (NpFloat q) b = Ok (NpFloat (ndiv q (val b))).
Proof. reflexivity. Qed.

Lemma truediv_np_r (a : pyval) (q : num) :
  truediv a (NpFloat q) = Ok (NpFloat (ndiv (val a) q)).
Proof. unfold truediv. rewrite orb_true_r. reflexivity. Qed.

(** C9: for every model with d > 0, coverage() is computeEOQ()/d,
    averageInventory() is computeEOQ()/2, and reorderPoint(leadTime) is
    d*leadTime for every lead time. *)
Theorem derived_metrics K h d v :
  0 < d ->
  let self := model K h d v in
  exists q,
    eoq.compute_eoq self = Ok (NpFloat (Fin q)) /\
    eoq.coverage self = Ok (NpFloat (Fin (q / d))) /\
    eoq.average_inventory self = Ok (NpFloat (Fin (q / dec 2 1))) /\
    forall lead_time, eoq.reorder_point self (py lead_time) = Ok (py (d * lead_time)).
Proof.
  intros Hd self.
  destruct (compute_eoq_total self) as (res & q & _ & _ & E).
  exists q. split; [exact E|].
  unfold eoq.coverage, eoq.average_inventory. rewrite E. cbn [bind].
  rewrite !truediv_np_l. unfold self, model, lit. cbn [eoq.d val py].
  rewrite ndiv_fin by (apply Qc_eqb_neq, Qc_pos_eqb, Hd).
  rewrite ndiv_fin by discriminate.
  repeat split.
Qed.

Lemma derived_metrics_witness :
  exists q,
    eoq.compute_eoq sample = Ok (NpFloat (Fin q)) /\
    eoq.coverage sample = Ok (NpFloat (Fin (q / dec 10 1))) /\
    eoq.average_inventory sample = Ok (NpFloat (Fin (q / dec 2 1))) /\
    eoq.reorder_point sample (py (dec 2 1)) = Ok (py (dec 10 1 * dec 2 1)).
Proof.
  assert (H : 0 < dec 10 1) by reflexivity.
  destruct (derived_metrics (dec 100 1) (dec 1 1) (dec 10 1) (dec 2 1) H)
    as (q & H1 & H2 & H3 & H4).
  exists q. exact (conj H1 (conj H2 (conj H3 (H4 (dec 2 1))))).
Defined.

(** C8: for every model with K, h, d > 0, itr() times computeEOQ() is 2*d;
    each of the two calls runs the search again and obtains the same
    quantity. *)
Theorem itr_times_eoq K h d v :
  0 < K -> 0 < h -> 0 < d ->
  let self := model K h d v in
  exists i q,
    eoq.itr self = Ok (NpFloat (Fin i)) /\
    eoq.compute_eoq self = Ok (NpFloat (Fin q)) /\
    i * q = dec 2 1 * d /\
    mul (NpFloat (Fin i)) (NpFloat (Fin q)) = Ok (NpFloat (Fin (dec 2 1 * d))).
Proof.
  intros HK Hh Hd self.
  assert (Hd0 : d <> 0) by (apply Qc_eqb_neq, Qc_pos_eqb, Hd).
  destruct (compute_eoq_nonzero K h d v HK Hd0) as (q & E & Hq).
  fold self in E.
  exists (dec 2 1 * d / q), q.
  assert (P : dec 2 1 * d / q * q = dec 2 1 * d) by (field; exact Hq).
  split; [|split; [exact E|split; [exact P|]]].
  - unfold eoq.itr. rewrite E. unfold self, model, mul, lit, py.
    cbn [eoq.d wrap is_np orb val nmul bind].
    rewrite truediv_np_r. cbn [val]. rewrite ndiv_fin by exact Hq. reflexivity.
  - unfold mul. cbn [wrap is_np orb val nmul]. rewrite P. reflexivity.
Qed.

Lemma itr_times_eoq_witness :
  exists i q,
    eoq.itr sample = Ok (NpFloat (Fin i)) /\
    eoq.compute_eoq sample = Ok (NpFloat (Fin q)) /\
    i * q = dec 2 1 * dec 10 1.
Proof.
  assert (HK : 0 < dec 100 1) by reflexivity.
  assert (Hh : 0 < dec 1 1) by reflexivity.
  assert (Hd : 0 < dec 10 1) by reflexivity.
  destruct (itr_times_eoq (dec 100 1) (dec 1 1) (dec 10 1) (dec 2 1) HK Hh Hd)
    as (i & q & H1 & H2 & H3 & _).
  exists i, q. exact (conj H1 (conj H2 H3)).
Defined.

(** ** The search on two concrete models *)

Lemma returned_value self q c :
  eoq.compute_eoq self = Ok (NpFloat (Fin q)) ->
  returned (eoq.compute_eoq self) = Some (this (Q2Qc c)) ->
  q = Q2Qc c.
Proof.
  intros E R. rewrite E in R. cbn [returned val] in R.
  apply Qc_decomp. congruence.
Qed.

(** On the sample instance the search, run in exact arithmetic, converges
    after 41 iterations, next to [sqrt 2000 = 44.7213595...]. *)
Lemma compute_eoq_sample :
  eoq.compute_eoq sample = Ok (NpFloat (Fin (dec 750299909 16777216))) /\
  report (optimize.minimize (eoq.relevant_cost sample) (lit 1 1) search_options)
  = Some (true, 0, 41, 82)%nat.
Proof.
  split; [|vm_compute; reflexivity].
  destruct (compute_eoq_total sample) as (res & q & _ & _ & E).
  rewrite E. do 3 f_equal.
  apply (returned_value sample q (750299909 # 16777216) E).
  vm_compute. reflexivity.
Qed.

(** On the model [small] the first three passes expand towards the
    optimum, from [(1, 1.05)] to [(0.3, 0.7)].  The fourth reflects 0.7
    through 0.3 to [-0.1], where the cost is [1/(-0.1) + 100*(-0.1)/2 = -15],
    and expands to [-0.5]; from there every pass expands further down. *)
Lemma small_search_trace :
  map (vertices_after small) [0; 1; 2; 3; 4; 5; 6]%nat
  = [Some (1, 21 # 20); Some (9 # 10, 1); Some (7 # 10, 9 # 10);
     Some (3 # 10, 7 # 10); Some (-1 # 2, 3 # 10); Some (-21 # 10, -1 # 2);
     Some (-53 # 10, -21 # 10)]%Q /\
  returned (eoq.relevant_cost small (NpFloat (Fin (dec (-1) 10)))) = Some (-15 # 1)%Q.
Proof. split; vm_compute; reflexivity. Qed.

(** The search stops when the 200 evaluations are used up. *)
Lemma compute_eoq_small :
  eoq.compute_eoq small
  = Ok (NpFloat (Fin (dec (-633825300114114700748351602677) 10))) /\
  report (optimize.minimize (eoq.relevant_cost small) (lit 1 1) search_options)
  = Some (false, 1, 100, 200)%nat.
Proof.
  split; [|vm_compute; reflexivity].
  destruct (compute_eoq_total small) as (res & q & _ & _ & E).
  rewrite E. do 3 f_equal.
  apply (returned_value small q (-633825300114114700748351602677 # 10) E).
  vm_compute. reflexivity.
Qed.

(** C1 fails on the code: for K = 1, h = 100, d = 1 the optimal quantity
    is sqrt(2/100) = 0.1414..., and [compute_eoq] returns about -6.3e28. *)
Theorem compute_eoq_misses_small_optimum :
  exists q,
    eoq.compute_eoq small = Ok (NpFloat (Fin q)) /\
    q < 0 /\
    ~ close_to_sqrt q (dec 2 1 * dec 1 1 * dec 1 1 / dec 100 1) (dec 1 1000000).
Proof.
  exists (dec (-633825300114114700748351602677) 10).
  split; [exact (proj1 compute_eoq_small)|].
  split; [reflexivity|].
  intros (H & _). vm_compute in H. discriminate H.
Qed.

(** ** Convergence failure *)

(** C4, as stated, fails: on [small] the search stops on its evaluation
    budget, reports [success = False], and [compute_eoq] returns the
    vertex it stopped at. *)
Lemma nonconvergence_is_not_reported :
  report (optimize.minimize (eoq.relevant_cost small) (lit 1 1) search_options)
  = Some (false, 1, 100, 200)%nat /\
  returned (eoq.compute_eoq small) = Some (-633825300114114700748351602677 # 10)%Q.
Proof. split; vm_compute; reflexivity. Qed.

(** C4, amended: [compute_eoq] never raises and never looks at the status
    of the search; whether or not the search converged it returns the first
    coordinate of the best vertex the search ended with. *)
Theorem compute_eoq_ignores_convergence (self : eoq.t) :
  exists res q,
    optimize.minimize (eoq.relevant_cost self) (lit 1 1) search_options = Ok res /\
    eoq.compute_eoq self = getitem (optimize.x res) 0 /\
    getitem (optimize.x res) 0 = Ok (NpFloat (Fin q)).
Proof.
  destruct (compute_eoq_total self) as (res & q & E & Ex & Ec).
  exists res, q. split; [exact E|].
  rewrite Ec, Ex. split; reflexivity.
Qed.

(** ** Shape of the relevant cost on positive quantities *)

Lemma fixed_formula_mult K d Q : d <> 0 -> Q <> 0 -> K / (Q / d) * Q = K * d.
Proof. intros. field. split; assumption. Qed.

Lemma half_mult (a : Qc) : a / dec 2 1 * dec 2 1 = a.
Proof. field. discriminate. Qed.

Lemma pos_neq (q : Qc) : 0 < q -> q <> 0.
Proof. intros H. apply Qc_eqb_neq, Qc_pos_eqb, H. Qed.

Lemma relevant_decreasing K h d x y :
  0 < K -> 0 < h -> 0 < d -> 0 < x -> x < y -> h * y * y <= dec 2 1 * K * d ->
  K / (y / d) + h * y / dec 2 1 < K / (x / d) + h * x / dec 2 1.
Proof.
  intros HK Hh Hd Hx Hxy Hy.
  assert (Hy0 : 0 < y) by (to_Q; lra).
  pose proof (fixed_formula_mult K d x (pos_neq d Hd) (pos_neq x Hx)) as Ex.
  pose proof (fixed_formula_mult K d y (pos_neq d Hd) (pos_neq y Hy0)) as Ey.
  pose proof (half_mult (h * x)) as Hx2.
  pose proof (half_mult (h * y)) as Hy2.
  set (rx := K / (x / d)) in *. set (ry := K / (y / d)) in *.
  set (hx := h * x / dec 2 1) in *. set (hy := h * y / dec 2 1) in *.
  clearbody rx ry hx hy. to_Q.
  assert (P : (0 < this x * this y)%Q) by nra.
  assert (F : ((this rx + this hx - this ry - this hy) * (this x * this y)
               == (this y - this x) * (this K * this d - this h * this x * this y * (1#2)))%Q).
  { nra. }
  assert (Hhy : (0 < this h * this y)%Q) by nra.
  assert (Hd1 : (0 < (this y - this x) * (this h * this y))%Q) by nra.
  assert (G : (0 < this K * this d - this h * this x * this y * (1#2))%Q) by nra.
  assert (D : (0 < this y - this x)%Q) by lra.
  nra.
Qed.

Lemma relevant_increasing K h d x y :
  0 < K -> 0 < h -> 0 < d -> 0 < x -> x < y -> dec 2 1 * K * d <= h * x * x ->
  K / (x / d) + h * x / dec 2 1 < K / (y / d) + h * y / dec 2 1.
Proof.
  intros HK Hh Hd Hx Hxy Hy.
  assert (Hy0 : 0 < y) by (to_Q; lra).
  pose proof (fixed_formula_mult K d x (pos_neq d Hd) (pos_neq x Hx)) as Ex.
  pose proof (fixed_formula_mult K d y (pos_neq d Hd) (pos_neq y Hy0)) as Ey.
  pose proof (half_mult (h * x)) as Hx2.
  pose proof (half_mult (h * y)) as Hy2.
  set (rx := K / (x / d)) in *. set (ry := K / (y / d)) in *.
  set (hx := h * x / dec 2 1) in *. set (hy := h * y / dec 2 1) in *.
  clearbody rx ry hx hy. to_Q.
  assert (P : (0 < this x * this y)%Q) by nra.
  assert (F : ((this rx + this hx - this ry - this hy) * (this x * this y)
               == (this y - this x) * (this K * this d - this h * this x * this y * (1#2)))%Q).
  { nra. }
  assert (Hhx : (0 < this h * this x)%Q) by nra.
  assert (Hd1 : (0 < (this y - this x) * (this h * this x))%Q) by nra.
  assert (G : (this K * this d - this h * this x * this y * (1#2) < 0)%Q) by nra.
  assert (D : (0 < this y - this x)%Q) by lra.
  nra.
Qed.

Lemma relevant_strictly_convex K h d x y t :
  0 < K -> 0 < d -> 0 < x -> 0 < y -> x <> y -> 0 < t -> t < 1 ->
  let z := t * x + (1 - t) * y in
  0 < z /\
  K / (z / d) + h * z / dec 2 1
  < t * (K / (x / d) + h * x / dec 2 1) + (1 - t) * (K / (y / d) + h * y / dec 2 1).
Proof.
  intros HK Hd Hx Hy Hne Ht0 Ht1 z.
  assert (Hz : 0 < z).
  { unfold z. to_Q. nra. }
  split; [exact Hz|].
  pose proof (fixed_formula_mult K d x (pos_neq d Hd) (pos_neq x Hx)) as Ex.
  pose proof (fixed_formula_mult K d y (pos_neq d Hd) (pos_neq y Hy)) as Ey.
  pose proof (fixed_formula_mult K d z (pos_neq d Hd) (pos_neq z Hz)) as Ez.
  pose proof (half_mult (h * x)) as Hx2.
  pose proof (half_mult (h * y)) as Hy2.
  pose proof (half_mult (h * z)) as Hz2.
  assert (Zdef : z = t * x + (1 - t) * y) by reflexivity.
  set (rx := K / (x / d)) in *. set (ry := K / (y / d)) in *.
  set (rz := K / (z / d)) in *.
  set (hx := h * x / dec 2 1) in *. set (hy := h * y / dec 2 1) in *.
  set (hz := h * z / dec 2 1) in *.
  clearbody rx ry rz hx hy hz z. to_Q.
  assert (L : (this hz == this t * this hx + (1 - this t) * this hy)%Q) by nra.
  assert (Kd : (0 < this K * this d)%Q) by nra.
  assert (S : (0 < (this x - this y) * (this x - this y))%Q).
  { assert (this x < this y \/ this y < this x)%Q as [A|A].
    { destruct (Qlt_le_dec (this x) (this y)) as [A|A]; [left; exact A|].
      right. apply Qle_lt_or_eq in A. destruct A as [A|A]; [exact A|].
      exfalso. apply Hne. symmetry. exact A. }
    - nra.
    - nra. }
  assert (T : (0 < this t * (1 - this t))%Q) by nra.
  assert (P : (0 < this x * this y * this z)%Q).
  { assert (0 < this x * this y)%Q by nra. nra. }
  assert (F : ((this t * this rx + (1 - this t) * this ry - this rz)
               * (this x * this y * this z)
               == this K * this d * (this t * (1 - this t))
                  * ((this x - this y) * (this x - this y)))%Q).
  { setoid_replace ((this t * this rx + (1 - this t) * this ry - this rz)
                    * (this x * this y * this z))%Q
      with (this t * (this rx * this x) * this y * this z
            + (1 - this t) * (this ry * this y) * this x * this z
            - (this rz * this z) * (this x * this y))%Q by ring.
    rewrite Ex, Ey, Ez, Zdef. ring. }
  assert (R : (0 < this K * this d * (this t * (1 - this t))
                   * ((this x - this y) * (this x - this y)))%Q).
  { assert (0 < this K * this d * (this t * (1 - this t)))%Q by nra. nra. }
  assert (M : (0 < this t * this rx + (1 - this t) * this ry - this rz)%Q).
  { rewrite <- F in R. nra. }
  lra.
Qed.

Lemma relevant_cost_pos K h d v Q :
  0 < d -> 0 < Q ->
  eoq.relevant_cost (model K h d v) (py Q) = Ok (py (relevant_formula K h d Q)).
Proof.
  intros Hd HQ. rewrite relevant_cost_py, (Qc_pos_eqb d Hd), (Qc_pos_eqb Q HQ).
  reflexivity.
Qed.

Lemma costs_less_formula K h d v x y :
  0 < d -> 0 < x -> 0 < y ->
  relevant_formula K h d x < relevant_formula K h d y ->
  costs_less (model K h d v) x y.
Proof.
  intros Hd Hx Hy H. unfold costs_less.
  rewrite !relevant_cost_pos by assumption. eauto.
Qed.

(** X19: for every model with K, h, d > 0 the relevant cost is strictly
    convex on Q > 0, strictly decreasing while h*Q^2 <= 2*K*d and strictly
    increasing once h*Q^2 >= 2*K*d; a positive Q with h*Q^2 = 2*K*d costs
    strictly less than every other positive quantity. *)
Theorem relevant_cost_convex_minimum_at_root K h d v :
  0 < K -> 0 < h -> 0 < d ->
  let self := model K h d v in
  (forall x y t, 0 < x -> 0 < y -> x <> y -> 0 < t -> t < 1 ->
     exists a b c,
       eoq.relevant_cost self (py x) = Ok (py a) /\
       eoq.relevant_cost self (py y) = Ok (py b) /\
       eoq.relevant_cost self (py (t * x + (1 - t) * y)) = Ok (py c) /\
       c < t * a + (1 - t) * b) /\
  (forall x y, 0 < x -> x < y -> h * y * y <= dec 2 1 * K * d ->
     costs_less self y x) /\
  (forall x y, 0 < x -> x < y -> dec 2 1 * K * d <= h * x * x ->
     costs_less self x y) /\
  (forall Qs Q, 0 < Qs -> h * Qs * Qs = dec 2 1 * K * d -> 0 < Q -> Q <> Qs ->
     costs_less self Qs Q).
Proof.
  intros HK Hh Hd self. unfold self.
  assert (lt_pos : forall x y : Qc, 0 < x -> x < y -> 0 < y).
  { intros x y Hx Hxy. exact (Qclt_trans _ _ _ Hx Hxy). }
  split; [|split; [|split]].
  - intros x y t Hx Hy Hne Ht0 Ht1.
    destruct (relevant_strictly_convex K h d x y t HK Hd Hx Hy Hne Ht0 Ht1)
      as [Hz Hc].
    rewrite !relevant_cost_pos by assumption.
    eexists _, _, _. repeat split. exact Hc.
  - intros x y Hx Hxy Hroot.
    apply costs_less_formula; eauto.
    apply relevant_decreasing; assumption.
  - intros x y Hx Hxy Hroot.
    apply costs_less_formula; eauto.
    apply relevant_increasing; assumption.
  - intros Qs Q HQs Hroot HQ Hne.
    apply costs_less_formula; try assumption.
    destruct (Qc_dec Q Qs) as [[Hlt|Hgt]|Heq]; [| |contradiction].
    + apply relevant_decreasing; try assumption.
      rewrite Hroot. apply Qcle_refl.
    + apply relevant_increasing; try assumption.
      rewrite Hroot. apply Qcle_refl.
Qed.

Lemma relevant_cost_convex_minimum_at_root_witness :
  costs_less (model (dec 1 1) (dec 2 1) (dec 1 1) (dec 2 1)) (dec 1 1) (dec 3 1) /\
  costs_less (model (dec 1 1) (dec 2 1) (dec 1 1) (dec 2 1)) (dec 1 1) (dec 1 3).
Proof.
  assert (HK : 0 < dec 1 1) by reflexivity.
  assert (Hh : 0 < dec 2 1) by reflexivity.
  destruct (relevant_cost_convex_minimum_at_root (dec 1 1) (dec 2 1) (dec 1 1)
              (dec 2 1) HK Hh HK) as (_ & _ & _ & H).
  split; apply H; try reflexivity; discriminate.
Defined.

(** C2 fails on the code for the same reason as C1.  On [small] the
    relevant cost falls on (0, 0.1414] and rises on [0.1415, +inf), so its
    minimum over the positive quantities lies between 0.1414 and 0.1415;
    the quantity returned by [compute_eoq] is negative. *)
Theorem compute_eoq_small_is_not_the_minimiser :
  exists Qopt,
    eoq.compute_eoq small = Ok (NpFloat (Fin Qopt)) /\
    Qopt < 0 /\
    (forall Q, 0 < Q -> Q < dec 1414 10000 -> costs_less small (dec 1414 10000) Q) /\
    (forall Q, dec 1415 10000 < Q -> costs_less small (dec 1415 10000) Q).
Proof.
  exists (dec (-633825300114114700748351602677) 10).
  split; [exact (proj1 compute_eoq_small)|].
  split; [reflexivity|].
  assert (H1 : 0 < dec 1 1) by reflexivity.
  assert (Hh : 0 < dec 100 1) by reflexivity.
  split.
  - intros Q HQ Hlt. apply costs_less_formula; try assumption; try reflexivity.
    apply relevant_decreasing; try assumption. vm_compute. discriminate.
  - intros Q Hlt.
    assert (HQ : 0 < Q) by (apply (Qclt_trans _ (dec 1415 10000)); [reflexivity|exact Hlt]).
    apply costs_less_formula; try assumption; try reflexivity.
    apply relevant_increasing; try assumption; try reflexivity.
    vm_compute. discriminate.
Qed.

(** ** Sensitivity *)

Lemma sensitivity_py K h d v Qopt Q :
  eoq.compute_eoq (model K h d v) = Ok (NpFloat (Fin Qopt)) ->
  Qopt <> 0 -> Q <> 0 ->
  eoq.sensitivity_to_Q (model K h d v) (py Q)
  = Ok (NpFloat (Fin (dec 1 2 * (Qopt / Q + Q / Qopt)))).
Proof.
  intros E Hopt HQ. unfold eoq.sensitivity_to_Q. rewrite E. cbn [bind].
  rewrite truediv_np_l, truediv_np_r. cbn [bind val py].
  rewrite !ndiv_fin by assumption. reflexivity.
Qed.

(** C7 fails on the code for the same reason as C1: on [small] the
    quantity Qopt returned by [compute_eoq] is negative, so the sensitivity
    at Q = 1, a positive quantity different from Qopt, is negative instead
    of above one. *)
Theorem sensitivity_below_one :
  exists Qopt s,
    eoq.compute_eoq small = Ok (NpFloat (Fin Qopt)) /\
    0 < dec 1 1 /\ dec 1 1 <> Qopt /\
    eoq.sensitivity_to_Q small (py (dec 1 1)) = Ok (NpFloat (Fin s)) /\
    s < 0.
Proof.
  pose proof (proj1 compute_eoq_small) as E.
  eexists _, _. split; [exact E|].
  split; [reflexivity|]. split; [discriminate|].
  split.
  - apply (sensitivity_py _ _ _ _ _ (dec 1 1) E); discriminate.
  - reflexivity.
Qed.

(** X1: Whenever [compute_eoq] returns a positive quantity Qopt, the
    sensitivity is one at Qopt, above one at every other positive Q, and
    takes the same value at Qopt*k and Qopt/k. *)
Lemma sensitivity_around_positive_optimum K h d v Qopt :
  eoq.compute_eoq (model K h d v) = Ok (NpFloat (Fin Qopt)) ->
  0 < Qopt ->
  let self := model K h d v in
  eoq.sensitivity_to_Q self (py Qopt) = Ok (NpFloat (Fin 1)) /\
  (forall Q, 0 < Q -> Q <> Qopt ->
     exists s, eoq.sensitivity_to_Q self (py Q) = Ok (NpFloat (Fin s)) /\ 1 < s) /\
  (forall k, 0 < k ->
     eoq.sensitivity_to_Q self (py (Qopt * k))
     = eoq.sensitivity_to_Q self (py (Qopt / k))).
Proof.
  intros E Hopt self. unfold self.
  pose proof (pos_neq Qopt Hopt) as Hopt0.
  split; [|split].
  - rewrite (sensitivity_py K h d v Qopt Qopt E Hopt0 Hopt0).
    apply (f_equal (fun q : Qc => Ok (NpFloat (Fin q)))).
    replace (dec 1 2) with (/ (1 + 1)) by (apply Qc_is_canon; reflexivity).
    field. split; [exact Hopt0 | discriminate].
  - intros Q HQ Hne. pose proof (pos_neq Q HQ) as HQ0.
    rewrite (sensitivity_py K h d v Qopt Q E Hopt0 HQ0).
    eexists. split; [reflexivity|].
    assert (Ea : Qopt / Q * Q = Qopt) by (field; exact HQ0).
    assert (Eb : Q / Qopt * Qopt = Q) by (field; exact Hopt0).
    set (a := Qopt / Q) in *. set (b := Q / Qopt) in *. clearbody a b.
    to_Q.
    assert (Hd : (this Q < this Qopt \/ this Qopt < this Q)%Q).
    { destruct (Qlt_le_dec (this Q) (this Qopt)) as [A|A]; [left; exact A|].
      right. apply Qle_lt_or_eq in A. destruct A as [A|A]; [exact A|].
      exfalso. apply Hne. symmetry. exact A. }
    assert (Ha : (0 < this a)%Q) by nra.
    assert (Hb : (0 < this b)%Q) by nra.
    assert (Hab : (this a * this b == 1)%Q) by nra.
    assert (Hsq : (0 < (this a - this b) * (this a - this b))%Q).
    { destruct Hd as [A|A].
      - assert (1 < this a)%Q by nra. assert (this b < 1)%Q by nra. nra.
      - assert (this a < 1)%Q by nra. assert (1 < this b)%Q by nra. nra. }
    nra.
  - intros k Hk. pose proof (pos_neq k Hk) as Hk0.
    assert (H1 : Qopt * k <> 0).
    { intros H. apply Qcmult_integral in H. tauto. }
    assert (H2 : Qopt / k <> 0).
    { rewrite Qcdiv_eq_0 by exact Hk0. exact Hopt0. }
    rewrite (sensitivity_py K h d v Qopt _ E Hopt0 H1).
    rewrite (sensitivity_py K h d v Qopt _ E Hopt0 H2).
    apply (f_equal (fun q : Qc => Ok (NpFloat (Fin q)))). field. split; assumption.
Qed.

Lemma sensitivity_around_positive_optimum_witness :
  eoq.sensitivity_to_Q sample (py (dec 750299909 16777216)) = Ok (NpFloat (Fin 1)) /\
  exists s, eoq.sensitivity_to_Q sample (py (dec 50 1)) = Ok (NpFloat (Fin s)) /\ 1 < s.
Proof.
  assert (H : 0 < dec 750299909 16777216) by reflexivity.
  destruct (sensitivity_around_positive_optimum (dec 100 1) (dec 1 1) (dec 10 1)
              (dec 2 1) (dec 750299909 16777216) (proj1 compute_eoq_sample) H)
    as (H1 & H2 & _).
  split; [exact H1|].
  apply H2; [reflexivity | discriminate].
Defined.

(** ** The scenario of the sample instance *)

(** X2: With K = 100, h = 1, d = 10, v = 2 the search converges and
    [compute_eoq] returns a quantity within relative error 1e-6 of
    sqrt(2000); the total cost at 44.7214 lies between 64.7213 and 64.7214,
    and the reorder point for a lead time of 2 is 20. *)
Theorem sample_instance_scenario :
  exists res q c,
    optimize.minimize (eoq.relevant_cost sample) (lit 1 1) search_options = Ok res /\
    optimize.success res = true /\
    eoq.compute_eoq sample = Ok (NpFloat (Fin q)) /\
    close_to_sqrt q (dec 2 1 * dec 100 1 * dec 10 1 / dec 1 1) (dec 1 1000000) /\
    eoq.cost sample (lit 447214 10000) = Ok (py c) /\
    dec 647213 10000 < c /\ c < dec 647214 10000 /\
    eoq.reorder_point sample (lit 2 1) = Ok (py (dec 20 1)).
Proof.
  destruct (compute_eoq_total sample) as (res & q & E & _ & Eq).
  pose proof (proj2 compute_eoq_sample) as R. rewrite E in R. cbn [report] in R.
  assert (Hq : q = dec 750299909 16777216).
  { pose proof (proj1 compute_eoq_sample) as V. rewrite Eq in V. congruence. }
  exists res, q. eexists.
  split; [exact E|]. split; [congruence|]. split; [exact Eq|].
  split; [|split; [unfold sample, lit; fold (py (dec 447214 10000));
                   rewrite cost_py; reflexivity|]].
  - rewrite Hq. unfold close_to_sqrt. repeat split; vm_compute; congruence.
  - split; [reflexivity|]. split; [reflexivity|].
    apply (f_equal (fun x => Ok (py x))). apply Qc_is_canon. reflexivity.
Qed.

(** * Further properties of the methods *)

(** ** Costs at a nonzero quantity *)

Lemma neq_eqb (q : Qc) : q <> 0 -> Qc_eqb q 0 = false.
Proof. apply Qc_eqb_neq. Qed.

Lemma co_fixed_nonzero K h d v Q :
  d <> 0 -> Q <> 0 -> eoq.co_fixed (model K h d v) (py Q) = Ok (py (K / (Q / d))).
Proof.
  intros Hd HQ. rewrite co_fixed_py, (neq_eqb d Hd), (neq_eqb Q HQ). reflexivity.
Qed.

Lemma relevant_cost_nonzero K h d v Q :
  d <> 0 -> Q <> 0 ->
  eoq.relevant_cost (model K h d v) (py Q) = Ok (py (relevant_formula K h d Q)).
Proof.
  intros Hd HQ. rewrite relevant_cost_py, (neq_eqb d Hd), (neq_eqb Q HQ). reflexivity.
Qed.

Lemma cost_nonzero K h d v Q :
  d <> 0 -> Q <> 0 ->
  eoq.cost (model K h d v) (py Q) = Ok (py (K / (Q / d) + d * v + h * Q / dec 2 1)).
Proof.
  intros Hd HQ. rewrite cost_py, (neq_eqb d Hd), (neq_eqb Q HQ). reflexivity.
Qed.

Lemma Qsquare_nonneg (x : Q) : (0 <= x * x)%Q.
Proof. nra. Qed.


(** X3: Total and relevant cost differ by the purchase cost d*v, whatever the
    quantity: the two costs order any two nonzero quantities the same
    way. *)
Theorem total_cost_is_relevant_cost_plus_purchase K h d v Q1 Q2 :
  d <> 0 -> Q1 <> 0 -> Q2 <> 0 ->
  let self := model K h d v in
  exists r1 r2 c1 c2,
    eoq.relevant_cost self (py Q1) = Ok (py r1) /\
    eoq.relevant_cost self (py Q2) = Ok (py r2) /\
    eoq.cost self (py Q1) = Ok (py c1) /\
    eoq.cost self (py Q2) = Ok (py c2) /\
    c1 = r1 + d * v /\ c2 = r2 + d * v /\
    (c1 < c2 <-> r1 < r2).
Proof.
  intros Hd H1 H2 self. unfold self.
  rewrite !relevant_cost_nonzero, !cost_nonzero by assumption.
  eexists _, _, _, _. do 4 (split; [reflexivity|]).
  unfold relevant_formula.
  set (a1 := K / (Q1 / d)). set (a2 := K / (Q2 / d)).
  set (b1 := h * Q1 / dec 2 1). set (b2 := h * Q2 / dec 2 1).
  split; [ring|]. split; [ring|].
  clearbody a1 a2 b1 b2. split; intros H; to_Q; lra.
Qed.


Lemma total_cost_is_relevant_cost_plus_purchase_witness :
  exists r1 r2 c1 c2,
    eoq.relevant_cost sample (py (dec 20 1)) = Ok (py r1) /\
    eoq.relevant_cost sample (py (dec 50 1)) = Ok (py r2) /\
    eoq.cost sample (py (dec 20 1)) = Ok (py c1) /\
    eoq.cost sample (py (dec 50 1)) = Ok (py c2) /\
    c1 = r1 + dec 10 1 * dec 2 1 /\ c2 = r2 + dec 10 1 * dec 2 1 /\
    (c1 < c2 <-> r1 < r2).
Proof.
  assert (Hd : dec 10 1 <> 0) by discriminate.
  assert (H1 : dec 20 1 <> 0) by discriminate.
  assert (H2 : dec 50 1 <> 0) by discriminate.
  exact (total_cost_is_relevant_cost_plus_purchase (dec 100 1) (dec 1 1) (dec 10 1)
           (dec 2 1) (dec 20 1) (dec 50 1) Hd H1 H2).
Defined.

(** X4: The ordering cost equals the holding cost exactly at the quantities
    with h*Q^2 = 2*K*d, and there the relevant cost is h*Q. *)
Theorem ordering_equals_holding_at_root K h d v Q :
  d <> 0 -> Q <> 0 ->
  let self := model K h d v in
  exists a b,
    eoq.co_fixed self (py Q) = Ok (py a) /\
    eoq.ch self (py Q) = Ok (py b) /\
    (a = b <-> h * Q * Q = dec 2 1 * K * d) /\
    (a = b -> eoq.relevant_cost self (py Q) = Ok (py (h * Q))).
Proof.
  intros Hd HQ self. unfold self.
  rewrite co_fixed_nonzero, ch_py, relevant_cost_nonzero by assumption.
  eexists _, _. do 2 (split; [reflexivity|]).
  pose proof (fixed_formula_mult K d Q Hd HQ) as Ea.
  pose proof (half_mult (h * Q)) as Eb.
  unfold relevant_formula.
  set (a := K / (Q / d)) in *. set (b := h * Q / dec 2 1) in *. clearbody a b.
  assert (Hsign : Q < 0 \/ 0 < Q).
  { destruct (Qc_dec Q 0) as [[A|A]|A]; [left; exact A|right; exact A|contradiction]. }
  split; [split|].
  - intros H. to_Q. nra.
  - intros H. to_Q.
    assert (E : ((this a - this b) * this Q == 0)%Q) by nra.
    destruct Hsign as [A|A]; nra.
  - intros H. apply (f_equal (fun q => Ok (py q))). to_Q. nra.
Qed.


Lemma ordering_equals_holding_at_root_witness :
  exists a b,
    eoq.co_fixed (model (dec 1 1) (dec 2 1) (dec 1 1) (dec 5 1)) (py (dec 3 1)) = Ok (py a) /\
    eoq.ch (model (dec 1 1) (dec 2 1) (dec 1 1) (dec 5 1)) (py (dec 3 1)) = Ok (py b) /\
    (a = b <-> dec 2 1 * dec 3 1 * dec 3 1 = dec 2 1 * dec 1 1 * dec 1 1).
Proof.
  assert (Hd : dec 1 1 <> 0) by discriminate.
  assert (HQ : dec 3 1 <> 0) by discriminate.
  destruct (ordering_equals_holding_at_root (dec 1 1) (dec 2 1) (dec 1 1) (dec 5 1)
              (dec 3 1) Hd HQ) as (a & b & H1 & H2 & H3 & _).
  exists a, b. exact (conj H1 (conj H2 H3)).
Defined.

(** X5: For K, h, d > 0 and Q > 0 the relevant cost is positive and its square
    is at least 2*K*d*h, with equality exactly when h*Q^2 = 2*K*d: no
    positive quantity costs less than sqrt(2*K*d*h). *)
Theorem relevant_cost_lower_bound K h d v Q :
  0 < K -> 0 < h -> 0 < d -> 0 < Q ->
  exists r,
    eoq.relevant_cost (model K h d v) (py Q) = Ok (py r) /\
    0 < r /\
    dec 2 1 * K * d * h <= r * r /\
    (r * r = dec 2 1 * K * d * h <-> h * Q * Q = dec 2 1 * K * d).
Proof.
  intros HK Hh Hd HQ.
  rewrite relevant_cost_nonzero by (apply pos_neq; assumption).
  eexists. split; [reflexivity|].
  pose proof (fixed_formula_mult K d Q (pos_neq d Hd) (pos_neq Q HQ)) as Ea.
  pose proof (half_mult (h * Q)) as Eb.
  unfold relevant_formula.
  set (a := K / (Q / d)) in *. set (b := h * Q / dec 2 1) in *. clearbody a b.
  to_Q.
  assert (Kd : (0 < this K * this d)%Q) by nra.
  assert (Ha : (0 < this a)%Q) by nra.
  assert (Hb : (0 < this b)%Q) by nra.
  assert (P : (this a * this b * (2#1) * this Q == this K * this d * this h * this Q)%Q) by nra.
  assert (P' : (this a * this b * (2#1) == this K * this d * this h)%Q) by nra.
  assert (S : ((this a + this b) * (this a + this b)
               == (this a - this b) * (this a - this b) + (2#1) * this K * this d * this h)%Q) by nra.
  pose proof (Qsquare_nonneg (this a - this b)) as Sq.
  split; [lra|]. split; [rewrite S; lra|].
  split; intros H; to_Q.
  - assert (Z : ((this a - this b) * (this a - this b) == 0)%Q) by lra.
    assert (E : (this a - this b == 0)%Q).
    { destruct (Qmult_integral _ _ Z); assumption. }
    nra.
  - assert (E : ((this a - this b) * this Q * (2#1) == 0)%Q) by nra.
    assert (E' : (this a - this b == 0)%Q).
    { destruct (Qmult_integral _ _ E) as [A|A]; [|lra].
      destruct (Qmult_integral _ _ A) as [A'|A']; [exact A'|lra]. }
    rewrite S. nra.
Qed.


Lemma relevant_cost_lower_bound_witness :
  exists r,
    eoq.relevant_cost sample (py (dec 20 1)) = Ok (py r) /\
    0 < r /\
    dec 2 1 * dec 100 1 * dec 10 1 * dec 1 1 <= r * r.
Proof.
  assert (HK : 0 < dec 100 1) by reflexivity.
  assert (Hh : 0 < dec 1 1) by reflexivity.
  assert (Hd : 0 < dec 10 1) by reflexivity.
  assert (HQ : 0 < dec 20 1) by reflexivity.
  destruct (relevant_cost_lower_bound (dec 100 1) (dec 1 1) (dec 10 1) (dec 2 1)
              (dec 20 1) HK Hh Hd HQ) as (r & H1 & H2 & H3 & _).
  exists r. exact (conj H1 (conj H2 H3)).
Defined.

(** ** Negative quantities *)

(** X6: The three quantity-dependent costs are odd functions of Q: the value at
    -Q is the opposite of the value at Q. *)
Theorem relevant_cost_is_odd K h d v Q :
  d <> 0 -> Q <> 0 ->
  let self := model K h d v in
  exists a b r,
    eoq.co_fixed self (py Q) = Ok (py a) /\
    eoq.co_fixed self (py (- Q)) = Ok (py (- a)) /\
    eoq.ch self (py Q) = Ok (py b) /\
    eoq.ch self (py (- Q)) = Ok (py (- b)) /\
    eoq.relevant_cost self (py Q) = Ok (py r) /\
    eoq.relevant_cost self (py (- Q)) = Ok (py (- r)).
Proof.
  intros Hd HQ self. unfold self.
  assert (HQ' : - Q <> 0).
  { intros H. apply HQ. rewrite <- (Qcopp_involutive Q), H. reflexivity. }
  rewrite !co_fixed_nonzero, !ch_py, !relevant_cost_nonzero by assumption.
  eexists _, _, _. split; [reflexivity|].
  assert (T : dec 2 1 <> 0) by discriminate.
  split; [apply (f_equal (fun q => Ok (py q))); field; auto|].
  split; [reflexivity|].
  split; [apply (f_equal (fun q => Ok (py q))); field; auto|].
  split; [reflexivity|].
  apply (f_equal (fun q => Ok (py q))). unfold relevant_formula. field. auto.
Qed.


Lemma relevant_cost_is_odd_witness :
  exists a b r,
    eoq.co_fixed sample (py (dec 20 1)) = Ok (py a) /\
    eoq.co_fixed sample (py (- dec 20 1)) = Ok (py (- a)) /\
    eoq.ch sample (py (dec 20 1)) = Ok (py b) /\
    eoq.ch sample (py (- dec 20 1)) = Ok (py (- b)) /\
    eoq.relevant_cost sample (py (dec 20 1)) = Ok (py r) /\
    eoq.relevant_cost sample (py (- dec 20 1)) = Ok (py (- r)).
Proof.
  assert (Hd : dec 10 1 <> 0) by discriminate.
  assert (HQ : dec 20 1 <> 0) by discriminate.
  exact (relevant_cost_is_odd (dec 100 1) (dec 1 1) (dec 10 1) (dec 2 1) (dec 20 1) Hd HQ).
Defined.

(** X7: For K, h, d > 0 the relevant cost has no lower bound on the negative
    quantities: below every number B there is the cost of some Q < 0.  The
    objective handed to the unconstrained search has no minimum. *)
Theorem relevant_cost_unbounded_below K h d v B :
  0 < K -> 0 < h -> 0 < d ->
  exists Q r,
    Q < 0 /\ eoq.relevant_cost (model K h d v) (py Q) = Ok (py r) /\ r < B.
Proof.
  intros HK Hh Hd.
  set (Q := if Qclt_le_dec B 0 then dec 2 1 * (B - 1) / h else - (1)).
  assert (HQ : Q < 0).
  { unfold Q. destruct (Qclt_le_dec B 0) as [A|A]; [|reflexivity].
    assert (E : dec 2 1 * (B - 1) / h * h = dec 2 1 * (B - 1)) by (field; apply pos_neq, Hh).
    set (q := dec 2 1 * (B - 1) / h) in *. clearbody q. to_Q. nra. }
  exists Q. eexists. split; [exact HQ|].
  assert (HQ0 : Q <> 0) by (intros E; rewrite E in HQ; discriminate HQ).
  rewrite relevant_cost_nonzero by first [assumption | apply pos_neq; assumption].
  split; [reflexivity|].
  pose proof (fixed_formula_mult K d Q (pos_neq d Hd) HQ0) as Ea.
  pose proof (half_mult (h * Q)) as Eb.
  unfold relevant_formula.
  set (a := K / (Q / d)) in *. set (b := h * Q / dec 2 1) in *.
  assert (Hb : b < B).
  { unfold b, Q. destruct (Qclt_le_dec B 0) as [A|A].
    - assert (E : h * (dec 2 1 * (B - 1) / h) / dec 2 1 = B - 1).
      { field. split; [apply pos_neq, Hh | discriminate]. }
      rewrite E. to_Q. lra.
    - assert (E : h * - (1) / dec 2 1 * dec 2 1 = - h) by (field; discriminate).
      set (c := h * - (1) / dec 2 1) in *. clearbody c. to_Q. lra. }
  clearbody a b. clear Eb. to_Q.
  assert (Kd : (0 < this K * this d)%Q) by nra.
  assert (Ha : (this a < 0)%Q) by nra.
  lra.
Qed.


Lemma relevant_cost_unbounded_below_witness :
  exists Q r,
    Q < 0 /\ eoq.relevant_cost sample (py Q) = Ok (py r) /\ r < dec (-1000000) 1.
Proof.
  assert (HK : 0 < dec 100 1) by reflexivity.
  assert (Hh : 0 < dec 1 1) by reflexivity.
  assert (Hd : 0 < dec 10 1) by reflexivity.
  exact (relevant_cost_unbounded_below (dec 100 1) (dec 1 1) (dec 10 1) (dec 2 1)
           (dec (-1000000) 1) HK Hh Hd).
Defined.

(** ** Derived metrics together *)




(** X9: No derived metric raises, whatever the four fields and the argument
    are: each divides with a numpy value on one side, so a zero divisor
    gives an infinity or nan instead of ZeroDivisionError. *)
Theorem derived_metrics_never_raise (self : eoq.t) (Q : pyval) :
  exists q a b c e,
    eoq.compute_eoq self = Ok (NpFloat (Fin q)) /\
    eoq.coverage self = Ok (NpFloat a) /\
    eoq.average_inventory self = Ok (NpFloat b) /\
    eoq.itr self = Ok (NpFloat c) /\
    eoq.sensitivity_to_Q self Q = Ok (NpFloat e).
Proof.
  destruct (compute_eoq_total self) as (res & q & _ & _ & E).
  exists q.
  unfold eoq.coverage, eoq.average_inventory, eoq.itr, eoq.sensitivity_to_Q.
  rewrite E. cbn [bind]. rewrite !truediv_np_l, truediv_np_r.
  unfold mul, add. cbn [bind wrap is_np orb val].
  rewrite truediv_np_r. rewrite ?orb_true_r.
  eexists _, _, _, _. repeat split; reflexivity.
Qed.

(** X10: With zero demand coverage() returns an infinity or nan, where
    co_fixed raises ZeroDivisionError. *)
Theorem zero_demand_coverage_is_not_finite K h v :
  exists x,
    eoq.coverage (model K h 0 v) = Ok (NpFloat x) /\ is_finite x = false /\
    eoq.co_fixed (model K h 0 v) (py 1) = Raise ZeroDivisionError.
Proof.
  destruct (compute_eoq_total (model K h 0 v)) as (res & q & _ & _ & E).
  unfold eoq.coverage. rewrite E. cbn [bind]. rewrite truediv_np_l.
  eexists. split; [reflexivity|]. split; [|reflexivity].
  unfold model, py. cbn [eoq.d val]. unfold ndiv.
  change (Qc_eqb 0 0) with true. cbn iota. unfold scale_inf.
  destruct (q ?= 0); reflexivity.
Qed.







(** ** What the purchase cost changes *)

(** X13: The unit purchase cost v enters the total cost only: for d and Q
    nonzero, two models that differ in v alone return the same compute_eoq,
    coverage, average_inventory, itr, sensitivity_to_Q and relevant_cost,
    and their total costs differ by d*(v' - v). *)
Theorem purchase_cost_only_shifts_total_cost K h d v v' Q :
  d <> 0 -> Q <> 0 ->
  let a := model K h d v in
  let b := model K h d v' in
  eoq.compute_eoq a = eoq.compute_eoq b /\
  eoq.coverage a = eoq.coverage b /\
  eoq.average_inventory a = eoq.average_inventory b /\
  eoq.itr a = eoq.itr b /\
  eoq.sensitivity_to_Q a (py Q) = eoq.sensitivity_to_Q b (py Q) /\
  eoq.relevant_cost a (py Q) = eoq.relevant_cost b (py Q) /\
  exists ca cb,
    eoq.cost a (py Q) = Ok (py ca) /\
    eoq.cost b (py Q) = Ok (py cb) /\
    cb = ca + d * (v' - v).
Proof.
  intros Hd HQ a b.
  assert (E : eoq.compute_eoq a = eoq.compute_eoq b) by reflexivity.
  split; [exact E|].
  unfold eoq.coverage, eoq.average_inventory, eoq.itr, eoq.sensitivity_to_Q.
  rewrite E.
  do 5 (split; [reflexivity|]).
  unfold a, b. rewrite !cost_nonzero by assumption.
  eexists _, _. split; [reflexivity|]. split; [reflexivity|]. ring.
Qed.

Lemma purchase_cost_only_shifts_total_cost_witness :
  eoq.compute_eoq sample
  = eoq.compute_eoq (model (dec 100 1) (dec 1 1) (dec 10 1) (dec 7 1)) /\
  exists ca cb,
    eoq.cost sample (py (dec 20 1)) = Ok (py ca) /\
    eoq.cost (model (dec 100 1) (dec 1 1) (dec 10 1) (dec 7 1)) (py (dec 20 1))
    = Ok (py cb) /\
    cb = ca + dec 10 1 * (dec 7 1 - dec 2 1).
Proof.
  assert (Hd : dec 10 1 <> 0) by discriminate.
  assert (HQ : dec 20 1 <> 0) by discriminate.
  destruct (purchase_cost_only_shifts_total_cost (dec 100 1) (dec 1 1) (dec 10 1)
              (dec 2 1) (dec 7 1) (dec 20 1) Hd HQ) as (H1 & _ & _ & _ & _ & _ & H7).
  exact (conj H1 H7).
Defined.

(** ** A search started at the optimum *)

Lemma Qcdiv_one (q : Qc) : q / dec 1 1 = q.
Proof. change (dec 1 1) with 1. field. discriminate. Qed.

(** With h = 2*K*d the start point 1 is the optimum and stays the best
    vertex of every simplex. *)
Section StartAtOptimum.
Import optimize.
Variables K h d v : Qc.
Hypothesis HK : 0 < K.
Hypothesis Hd : 0 < d.
Hypothesis Hh : h = dec 2 1 * K * d.

Let self := model K h d v.
Let f := objective self.

Lemma h_pos : 0 < h.
Proof. rewrite Hh. to_Q. nra. Qed.

Lemma objective_pos q :
  0 < q -> f (Fin q) = Fin (relevant_formula K h d q).
Proof.
  intros Hq. unfold f, self. rewrite objective_model by (try apply pos_neq; assumption).
  rewrite (Qc_pos_eqb q Hq). reflexivity.
Qed.

Lemma one_is_cheapest q :
  0 < q -> q <> 1 -> relevant_formula K h d 1 < relevant_formula K h d q.
Proof.
  intros Hq Hne. unfold relevant_formula.
  assert (R : h * 1 * 1 = dec 2 1 * K * d) by (rewrite Hh; ring).
  destruct (Qc_dec q 1) as [[A|A]|A]; [| |contradiction].
  - apply relevant_decreasing; try assumption; try apply h_pos.
    rewrite R. apply Qcle_refl.
  - apply relevant_increasing; try assumption; try apply h_pos; try reflexivity.
    rewrite R. apply Qcle_refl.
Qed.

Lemma not_below_one q :
  0 < q -> q <> 1 -> nlt (f (Fin q)) (f (Fin 1)) = false.
Proof.
  intros Hq Hne. rewrite !objective_pos by (assumption || reflexivity).
  cbn [nlt]. unfold Qc_ltb.
  assert (C : (relevant_formula K h d q ?= relevant_formula K h d 1) = Gt).
  { apply Qcgt_alt. apply one_is_cheapest; assumption. }
  rewrite C. reflexivity.
Qed.

Lemma anchored_replace s p n :
  anchored f s -> 0 < p -> p < dec 2 1 -> p <> 1 ->
  anchored f (advance (sort (replace_worst s (Fin p) (f (Fin p)) n))).
Proof.
  intros (w & E0 & E1 & _ & _ & _ & F0 & _) Hp Hp2 Hne.
  exists p. unfold sort, out_of_order. cbn [replace_worst fsim0 fsim1].
  rewrite F0, (not_below_one p Hp Hne).
  rewrite (objective_pos 1) by reflexivity. cbn [is_nan andb orb].
  cbn [advance replace_worst sim0 sim1 fsim0 fsim1]. rewrite E0, F0.
  rewrite (objective_pos 1) by reflexivity. repeat split; assumption.
Qed.

Lemma anchored_step s :
  anchored f s -> exists s', step (eoq.relevant_cost self) s = Ok s' /\ anchored f s'.
Proof.
  intros J. pose proof J as (w & E0 & E1 & Hw0 & Hw2 & Hw1 & F0 & F1).
  unfold step, shrink. rewrite E0, E1, ndiv_one, Qcdiv_one.
  cbn [nmul nsub nadd nneg]. rewrite !call_relevant_cost. fold self f. cbn [bind].
  rewrite F0.
  match goal with
  | |- context [nlt (f (Fin ?xr)) (f (Fin 1))] =>
      assert (Hr : 0 < xr /\ xr <> 1)
  end.
  { unfold rho. split.
    - to_Q. lra.
    - intros A. apply Hw1. to_Q. lra. }
  rewrite (not_below_one _ (proj1 Hr) (proj2 Hr)).
  repeat match goal with
         | |- context [if ?b then _ else _] => destruct b
         end;
    cbn [bind]; rewrite ?call_relevant_cost; fold self f; cbn [bind];
    (eexists; split; [reflexivity|]);
    apply anchored_replace; try exact J;
    unfold rho, psi, sigma; try (intros A; apply Hw1); to_Q; lra.
Qed.

Lemma anchored_loop xatol maxfun remaining s :
  anchored f s ->
  exists s', loop (eoq.relevant_cost self) xatol maxfun remaining s = Ok s' /\ anchored f s'.
Proof.
  revert s. induction remaining as [|r IH]; intros s J; simpl.
  - eauto.
  - destruct (maxfun <=? fcalls s)%nat; [eauto|].
    destruct (converged xatol s); [eauto|].
    destruct (anchored_step s J) as (s' & E & J').
    rewrite E. cbn [bind]. apply IH, J'.
Qed.

Lemma compute_eoq_anchored :
  eoq.compute_eoq self = Ok (NpFloat (Fin 1)).
Proof.
  unfold eoq.compute_eoq, optimize.minimize, minimize_neldermead, initial.
  cbn [val lit xtol].
  change (is_zero (Fin (dec 1 1))) with false. cbn [negb nmul].
  rewrite !call_relevant_cost. fold self f. cbn [bind].
  match goal with
  | |- context [loop _ ?xa ?mf ?r ?s] =>
      destruct (anchored_loop xa mf r s) as (s' & E & (w & E0 & _))
  end.
  - set (y := (1 + nonzdelt) * dec 1 1).
    assert (Hy : 0 < y /\ y < dec 2 1 /\ y <> 1) by (repeat split; discriminate).
    destruct Hy as (Hy0 & Hy2 & Hy1).
    exists y. unfold sort, out_of_order. cbn [fsim0 fsim1].
    change (Fin (dec 1 1)) with (Fin 1).
    rewrite (not_below_one y Hy0 Hy1).
    rewrite (objective_pos 1) by reflexivity. cbn [is_nan andb orb].
    cbn [sim0 sim1 fsim0 fsim1]. repeat split; assumption.
  - rewrite E. cbn [bind x getitem nth_error]. rewrite E0. reflexivity.
Qed.

End StartAtOptimum.



(** X15: When the quantity Qopt of compute_eoq() is the exact optimum
    (h*Qopt^2 = 2*K*d), sensitivity_to_Q(Q) is the ratio of the relevant
    cost at Q to the relevant cost at Qopt, as its docstring says. *)
Theorem sensitivity_is_the_cost_ratio K h d v Qopt Q :
  0 < K -> 0 < h -> 0 < d ->
  eoq.compute_eoq (model K h d v) = Ok (NpFloat (Fin Qopt)) ->
  0 < Qopt -> h * Qopt * Qopt = dec 2 1 * K * d ->
  0 < Q ->
  let self := model K h d v in
  exists s c copt,
    eoq.sensitivity_to_Q self (py Q) = Ok (NpFloat (Fin s)) /\
    eoq.relevant_cost self (py Q) = Ok (py c) /\
    eoq.relevant_cost self (py Qopt) = Ok (py copt) /\
    c = s * copt.
Proof.
  intros HK Hh Hd E Hopt Hroot HQ self. unfold self.
  pose proof (pos_neq Qopt Hopt) as Hopt0. pose proof (pos_neq Q HQ) as HQ0.
  pose proof (pos_neq d Hd) as Hd0.
  rewrite (sensitivity_py K h d v Qopt Q E Hopt0 HQ0).
  rewrite !relevant_cost_pos by assumption.
  eexists _, _, _. do 3 (split; [reflexivity|]).
  unfold relevant_formula.
  assert (T : dec 2 1 <> 0) by discriminate.
  assert (EK : K = h * Qopt * Qopt / (dec 2 1 * d)).
  { rewrite Hroot. field. split; assumption. }
  rewrite EK.
  replace (dec 1 2) with (/ dec 2 1) by (apply Qc_is_canon; reflexivity).
  replace (dec 2 1) with (1 + 1) in * by (apply Qc_is_canon; reflexivity).
  field. repeat split; assumption.
Qed.


Lemma sensitivity_is_the_cost_ratio_witness :
  exists s c copt,
    eoq.sensitivity_to_Q (model (dec 1 1) (dec 2 1) (dec 1 1) (dec 5 1)) (py (dec 3 1))
    = Ok (NpFloat (Fin s)) /\
    eoq.relevant_cost (model (dec 1 1) (dec 2 1) (dec 1 1) (dec 5 1)) (py (dec 3 1))
    = Ok (py c) /\
    eoq.relevant_cost (model (dec 1 1) (dec 2 1) (dec 1 1) (dec 5 1)) (py 1)
    = Ok (py copt) /\
    c = s * copt.
Proof.
  assert (H1 : 0 < dec 1 1) by reflexivity.
  assert (H2 : 0 < dec 2 1) by reflexivity.
  assert (H3 : 0 < dec 3 1) by reflexivity.
  assert (Hh : dec 2 1 = dec 2 1 * dec 1 1 * dec 1 1) by (apply Qc_is_canon; reflexivity).
  assert (Hr : dec 2 1 * 1 * 1 = dec 2 1 * dec 1 1 * dec 1 1) by (apply Qc_is_canon; reflexivity).
  exact (sensitivity_is_the_cost_ratio (dec 1 1) (dec 2 1) (dec 1 1) (dec 5 1) 1 (dec 3 1)
           H1 H2 H1
           (compute_eoq_anchored (dec 1 1) (dec 2 1) (dec 1 1) (dec 5 1) H1 H1 Hh)
           H1 Hr H3).
Defined.

(** ** The static methods *)

(** X16: [_plot_eoq] raises nothing and draws three labelled lines over Q = 10,
    ..., 99, then the legend of the three lines, the axis labels and the
    figure.  Every ordinate is a rational; the total is the ordering cost
    plus the holding cost at every Q; the ordering cost falls and the
    holding cost rises with Q; the total falls up to Q = 45, where it is
    805/18, and rises from there; the two components cross between 44 and
    45. *)
Theorem plot_eoq_draws_three_curves :
  snd _plot_eoq = Ok tt /\
  map plt.outline (fst _plot_eoq)
  = [plt.plot (range 10 100) [] (Some "Total relevant cost"%string);
     plt.plot (range 10 100) [] (Some "Ordering cost"%string);
     plt.plot (range 10 100) [] (Some "Holding cost"%string);
     plt.legend [0; 1; 2]%nat 1; plt.ylabel "Cost"; plt.xlabel "Q"; plt.show] /\
  let total := plt.ordinates (nth_call 0 (fst _plot_eoq)) in
  let ordering := plt.ordinates (nth_call 1 (fst _plot_eoq)) in
  let holding := plt.ordinates (nth_call 2 (fst _plot_eoq)) in
  List.length total = 90%nat /\
  List.length ordering = 90%nat /\
  List.length holding = 90%nat /\
  total = sums ordering holding /\
  strictly_decreasing ordering = true /\
  strictly_increasing holding = true /\
  strictly_decreasing (firstn 36 total) = true /\
  strictly_increasing (skipn 35 total) = true /\
  nth 35 total 0%Q = (805 # 18)%Q /\
  (nth 34 holding 0 < nth 34 ordering 0)%Q /\
  (nth 35 ordering 0 < nth 35 holding 0)%Q.
Proof. vm_compute. repeat split. Qed.

(** X17: [_plot_sensitivity_to_Q], which the module runs as its main program,
    raises nothing and draws one unlabelled line over Q = 20, ..., 79, then
    the axis labels and the figure.  The sixty ordinates, each from a
    search of its own, are rationals above one; they fall up to Q = 45 and
    rise from there. *)
Theorem plot_sensitivity_draws_one_curve :
  snd _plot_sensitivity_to_Q = Ok tt /\
  main = _plot_sensitivity_to_Q /\
  map plt.outline (fst _plot_sensitivity_to_Q)
  = [plt.plot (range 20 80) [] None;
     plt.ylabel "Sensitivity"; plt.xlabel "Q"; plt.show] /\
  let curve := plt.ordinates (nth_call 0 (fst _plot_sensitivity_to_Q)) in
  List.length curve = 60%nat /\
  forallb (fun s => match (1 ?= s)%Q with Lt => true | _ => false end) curve = true /\
  strictly_decreasing (firstn 26 curve) = true /\
  strictly_increasing (skipn 25 curve) = true.
Proof. vm_compute. repeat split. Qed.

(** X18: [_sample_instance] raises nothing and prints two numbers: the
    quantity of compute_eoq(), within relative error 1e-6 of sqrt(2000),
    and the relevant cost at that quantity, whose square is at least
    2*K*d*h = 2000 and exceeds it by less than 1e-9. *)
Theorem sample_instance_prints_quantity_and_cost :
  snd _sample_instance = Ok tt /\
  exists q c,
    fst _sample_instance = [NpFloat (Fin q); NpFloat (Fin c)] /\
    eoq.compute_eoq sample = Ok (NpFloat (Fin q)) /\
    close_to_sqrt q (dec 2 1 * dec 100 1 * dec 10 1 / dec 1 1) (dec 1 1000000) /\
    eoq.relevant_cost sample (NpFloat (Fin q)) = Ok (NpFloat (Fin c)) /\
    dec 2000 1 <= c * c /\
    c * c < dec 2000 1 + dec 1 1000000000.
Proof.
  pose proof (proj1 compute_eoq_sample) as E.
  assert (C : exists c,
             eoq.relevant_cost sample (NpFloat (Fin (dec 750299909 16777216)))
             = Ok (NpFloat (Fin c)) /\
             this c = (1125899906866720281 # 25175887276146688)%Q).
  { eexists. split; [reflexivity|]. vm_compute. reflexivity. }
  destruct C as (c & Ec & Vc).
  assert (R : _sample_instance
              = ([NpFloat (Fin (dec 750299909 16777216)); NpFloat (Fin c)], Ok tt)).
  { unfold _sample_instance, io_bind, lift, emit.
    change (eoq.init (of_int 100) (of_int 1) (of_int 10) (of_int 2)) with sample.
    cbn [snd fst]. rewrite E. cbn [snd fst]. rewrite Ec. reflexivity. }
  rewrite R. split; [reflexivity|].
  exists (dec 750299909 16777216), c.
  split; [reflexivity|]. split; [exact E|].
  split; [unfold close_to_sqrt; repeat split; vm_compute; congruence|].
  split; [exact Ec|].
  unfold Qclt, Qcle. rewrite !this_plus, !this_mult, !this_dec, Vc.
  split; [vm_compute; discriminate | reflexivity].
Qed.
